(** * TrackPro: the calibration engine

    A shallow embedding of the calibration logic of TrackPro:
    - [GUI/mainwindow.cpp]: the Qt front-end ([MainWindow]) with its live
      axis ranges, the calibrated flag, the backup history, the range
      validation and the integer normaliser of [updateValues];
    - [src/main.cpp]: the Win32 front-end's normaliser ([WindowProc]);
    - [src/RegistryHandler.cpp]: the persistence of a calibration record in
      the registry ([saveCalibrationToRegistry], [readCalibrationData]).

    [LONG] values are 32-bit signed integers and [DWORD] values 32-bit
    unsigned ones; both are embedded in [Z] with the wrap-around of the
    machine operations written out.  Wide strings are embedded as [string]
    (every literal of the program is ASCII). *)

From Stdlib Require Import ZArith Lia String Ascii List Bool.
From Stdlib Require Import DecimalString DecimalPos.
From stdpp Require Import base option list gmap strings.

Open Scope Z_scope.

(** ** Machine integers *)

Definition LONG_MIN : Z := -2147483648.
Definition LONG_MAX : Z := 2147483647.
Definition ULONG_MAX : Z := 4294967295.

Definition in_LONG (v : Z) : Prop := LONG_MIN <= v <= LONG_MAX.
Definition in_DWORD (v : Z) : Prop := 0 <= v <= ULONG_MAX.

(** Result of a [LONG] (or [int]) operation, wrapped to 32 bits, two's
    complement. *)
Definition wrapLONG (v : Z) : Z := (v + 2147483648) mod 4294967296 - 2147483648.

(** Result of a [DWORD] operation. *)
Definition wrapDWORD (v : Z) : Z := v mod 4294967296.

(** Integer division of the machine: truncation toward zero; [None] is the
    division by zero. *)
Definition LONG_div (a b : Z) : option Z :=
  if b =? 0 then None else Some (wrapLONG (Z.quot a b)).

(** ** Axis ranges (mainwindow.h, main.cpp, RegistryHandler.h) *)

Record AxisRange : Type := mkAxisRange { min : Z; max : Z }.

Definition default_range : AxisRange := {| min := 0; max := 4095 |}.

(** ** The integer normaliser *)

(** The [updateAxis] lambda of [MainWindow::updateValues]: the value given
    to the label and to the progress bar. *)
Definition updateAxis (raw : Z) (range : AxisRange) : option Z :=
  if raw <=? min range then Some 0
  else if raw >=? max range then Some 100
  else LONG_div (wrapLONG (wrapLONG (raw - min range) * 100))
                (wrapLONG (max range - min range)).

(** The calibrated percentage of [WindowProc] (case [WM_USER]), written there
    once per axis as a nested conditional expression. *)
Definition WindowProc_CalPercent (g_currentRaw : Z) (g_range : AxisRange) : option Z :=
  if g_currentRaw <=? min g_range then Some 0
  else if g_currentRaw >=? max g_range then Some 100
  else LONG_div (wrapLONG (wrapLONG (g_currentRaw - min g_range) * 100))
                (wrapLONG (max g_range - min g_range)).

(** The divisor of the chart scaling of [updateValues] (lines 416-418); the
    quotient itself is computed in floating point. *)
Definition scaled_divisor (range : AxisRange) : Z :=
  wrapLONG (max range - min range).

(** ** Validation (mainwindow.cpp) *)

(** The message boxes of the two validation functions, by their title. *)
Inductive Warning : Type :=
| InvalidRange   (* "Invalid Range" *)
| SmallRange     (* "Small Range" *)
| UnusualValue.  (* "Unusual Value" *)

(** [validateAxisRange]: the returned flag and the warning shown. *)
Definition validateAxisRange (range : AxisRange) : bool * option Warning :=
  if min range >=? max range then (false, Some InvalidRange)
  else if wrapLONG (max range - min range) <? 409 then (false, Some SmallRange)
  else (true, None).

Definition isValueUnusual (value : Z) : bool * option Warning :=
  if (value <? 100) || (value >? 3995) then (true, Some UnusualValue)
  else (false, None).

(** ** Exceptions of the C++ library *)

Inductive exception : Type := invalid_argument | out_of_range.

Inductive Result (A : Type) : Type :=
| Ok (a : A)
| Throw (e : exception).
Arguments Ok {A} a.
Arguments Throw {A} e.

#[export] Instance Result_ret : MRet Result := fun A a => Ok a.
#[export] Instance Result_bind : MBind Result := fun A B k m =>
  match m with
  | Ok a => k a
  | Throw e => Throw e
  end.

(** ** Wide strings: the operations of [std::wstring] the program uses *)

(** [std::to_wstring] of an integer: decimal digits, a leading minus sign
    for a negative value. *)
Definition to_wstring (v : Z) : string := NilZero.string_of_int (Z.to_int v).

(** [token.find(p) == 0]: the first occurrence of [p] is at position 0. *)
Definition find_at_0 (token p : string) : bool := String.prefix p token.

(** [s.substr(pos)]: the text from [pos] on; [pos] beyond the end throws. *)
Fixpoint substr (s : string) (pos : nat) {struct pos} : Result string :=
  match pos, s with
  | O, _ => Ok s
  | S n, String _ r => substr r n
  | S _, EmptyString => Throw out_of_range
  end.

Definition iswspace (c : ascii) : bool :=
  let n := N_of_ascii c in ((n =? 32) || ((9 <=? n) && (n <=? 13)))%N.

Definition digit_value (c : ascii) : option Z :=
  let n := Z.of_N (N_of_ascii c) in
  if (48 <=? n) && (n <=? 57) then Some (n - 48) else None.

Fixpoint skip_space (s : string) : string :=
  match s with
  | String c r => if iswspace c then skip_space r else s
  | EmptyString => EmptyString
  end.

(** The digits read by [stoul], most significant first; reading stops at the
    first character that is not a digit. *)
Fixpoint stoul_digits (s : string) (acc : Z) : Z :=
  match s with
  | String c r =>
      match digit_value c with
      | Some d => stoul_digits r (acc * 10 + d)
      | None => acc
      end
  | EmptyString => acc
  end.

Definition starts_with_digit (s : string) : bool :=
  match s with
  | String c _ => match digit_value c with Some _ => true | None => false end
  | EmptyString => false
  end.

(** [std::stoul(s)] in base 10 ([wcstoul]): leading white space, an optional
    sign, then digits.  No digit: [invalid_argument]; a magnitude above
    [ULONG_MAX]: [out_of_range]; a minus sign negates in [unsigned long],
    which has 32 bits on this platform. *)
Definition stoul (s : string) : Result Z :=
  let s1 := skip_space s in
  let '(negative, s2) :=
    match s1 with
    | String "-"%char r => (true, r)
    | String "+"%char r => (false, r)
    | _ => (false, s1)
    end in
  if starts_with_digit s2 then
    let v := stoul_digits s2 0 in
    if v >? ULONG_MAX then Throw out_of_range
    else Ok (if negative then wrapDWORD (- v) else v)
  else Throw invalid_argument.

(** The tokens of the parsing loop of [saveCalibrationToRegistry]: the loop
    looks for the next [";"] from [pos], takes the text before it as the
    token and goes on after it; the text after the last [";"] is never read. *)
Fixpoint tokens (s : string) : list string :=
  match s with
  | EmptyString => []
  | String c r =>
      if Ascii.eqb c ";" then EmptyString :: tokens r
      else match tokens r with
           | [] => []
           | t :: ts => String c t :: ts
           end
  end.

(** ** The persisted record (RegistryHandler.cpp) *)

(** [struct AxisCalibration], packed. *)
Record AxisCalibration : Type := mkAxisCalibration {
  cal_min : Z;
  cal_mid : Z;
  cal_max : Z;
  cal_minDeadzone : Z;
  cal_maxDeadzone : Z
}.

(** The four bytes of a [DWORD] in memory (little endian). *)
Definition DWORD_bytes (v : Z) : list Z :=
  [v mod 256; (v / 256) mod 256; (v / 65536) mod 256; (v / 16777216) mod 256].

Definition DWORD_of_bytes (b : list Z) : Z :=
  match b with
  | [b0; b1; b2; b3] => b0 + 256 * b1 + 65536 * b2 + 16777216 * b3
  | _ => 0
  end.

(** The object representation handed to [RegSetValueExW]:
    [sizeof(AxisCalibration)] bytes from [&axisData]. *)
Definition AxisCalibration_bytes (a : AxisCalibration) : list Z :=
  DWORD_bytes (cal_min a) ++ DWORD_bytes (cal_mid a) ++ DWORD_bytes (cal_max a)
  ++ DWORD_bytes (cal_minDeadzone a) ++ DWORD_bytes (cal_maxDeadzone a).

Definition AxisCalibration_of_bytes (b : list Z) : AxisCalibration :=
  {| cal_min := DWORD_of_bytes (take 4 b);
     cal_mid := DWORD_of_bytes (take 4 (drop 4 b));
     cal_max := DWORD_of_bytes (take 4 (drop 8 b));
     cal_minDeadzone := DWORD_of_bytes (take 4 (drop 12 b));
     cal_maxDeadzone := DWORD_of_bytes (take 4 (drop 16 b)) |}.

(** The local variables [min], [max], [minDeadzone], [maxDeadzone] of
    [saveCalibrationToRegistry]. *)
Record ParsedValues : Type := mkParsedValues {
  p_min : Z;
  p_max : Z;
  p_minDeadzone : Z;
  p_maxDeadzone : Z
}.

Definition initial_values : ParsedValues :=
  {| p_min := 0; p_max := 4095; p_minDeadzone := 0; p_maxDeadzone := 0 |}.

(** One [case] of the [switch] in the loop: the chain of four prefix tests,
    each with the position its value is read from. *)
Definition parse_case (token : string)
    (pMin : string) (oMin : nat) (pMax : string) (oMax : nat)
    (pMinDz : string) (oMinDz : nat) (pMaxDz : string) (oMaxDz : nat)
    (v : ParsedValues) : Result ParsedValues :=
  if find_at_0 token pMin then
    t ← substr token oMin; n ← stoul t;
    mret {| p_min := n; p_max := p_max v;
            p_minDeadzone := p_minDeadzone v; p_maxDeadzone := p_maxDeadzone v |}
  else if find_at_0 token pMax then
    t ← substr token oMax; n ← stoul t;
    mret {| p_min := p_min v; p_max := n;
            p_minDeadzone := p_minDeadzone v; p_maxDeadzone := p_maxDeadzone v |}
  else if find_at_0 token pMinDz then
    t ← substr token oMinDz; n ← stoul t;
    mret {| p_min := p_min v; p_max := p_max v;
            p_minDeadzone := n; p_maxDeadzone := p_maxDeadzone v |}
  else if find_at_0 token pMaxDz then
    t ← substr token oMaxDz; n ← stoul t;
    mret {| p_min := p_min v; p_max := p_max v;
            p_minDeadzone := p_minDeadzone v; p_maxDeadzone := n |}
  else mret v.

(** The body of the loop: [switch (axisIndex)], without a [default]. *)
Definition parse_token (axisIndex : Z) (token : string) (v : ParsedValues)
  : Result ParsedValues :=
  match axisIndex with
  | 0 => parse_case token "MinX=" 5 "MaxX=" 5 "MinDeadzoneX=" 12 "MaxDeadzoneX=" 12 v
  | 1 => parse_case token "MinZ=" 5 "MaxZ=" 5 "MinDeadzoneZ=" 12 "MaxDeadzoneZ=" 12 v
  | 2 => parse_case token "MinRY=" 6 "MaxRY=" 6 "MinDeadzoneRY=" 13 "MaxDeadzoneRY=" 13 v
  | _ => mret v
  end.

Fixpoint parse_tokens (axisIndex : Z) (ts : list string) (v : ParsedValues)
  : Result ParsedValues :=
  match ts with
  | [] => mret v
  | token :: rest => v' ← parse_token axisIndex token v; parse_tokens axisIndex rest v'
  end.

(** The parsing part of [saveCalibrationToRegistry] (lines 57-96). *)
Definition parse_calibrationData (calibrationData : string) (axisIndex : Z)
  : Result ParsedValues :=
  parse_tokens axisIndex (tokens calibrationData) initial_values.

(** The record built from the parsed values (lines 98 and 110). *)
Definition axisData_of (v : ParsedValues) : AxisCalibration :=
  let mid := wrapDWORD (p_min v + p_max v) / 2 in
  {| cal_min := p_min v; cal_mid := mid; cal_max := p_max v;
     cal_minDeadzone := p_minDeadzone v; cal_maxDeadzone := p_maxDeadzone v |}.

(** ** The registry *)

(** [HKEY_CURRENT_USER]: the keys that exist, by path, each with its named
    binary values. *)
Abbreviation Registry := (gmap string (gmap string (list Z))).

Definition registryIndex (axisIndex : Z) : Z :=
  match axisIndex with
  | 0 => 0
  | 1 => 2
  | 2 => 4
  | _ => 0
  end.

Definition basePath : string :=
  "System\CurrentControlSet\Control\MediaProperties\PrivateProperties\DirectInput\VID_1DD2&PID_2735\Calibration\0\Type\Axes\".

(** The key written by [saveCalibrationToRegistry] (line 55). *)
Definition saveCalibrationToRegistry_axisPath (axisIndex : Z) : string :=
  (basePath +:+ to_wstring (registryIndex axisIndex))%string.

(** The key read by the iteration [axisIndex] of [readCalibrationData]
    (line 143). *)
Definition readCalibrationData_axisPath (axisIndex : Z) : string :=
  (basePath +:+ to_wstring axisIndex)%string.

(** [saveCalibrationToRegistry]: the key is opened, never created, and the
    value is set on an open key ([RegSetValueExW] is taken to succeed
    there); an exception of the parsing part leaves the function before
    anything is written; the broadcast of [refreshDeviceState] leaves the
    registry as it is. *)
Definition saveCalibrationToRegistry (calibrationData : string) (axisIndex : Z)
    (hkcu : Registry) : Result Registry :=
  v ← parse_calibrationData calibrationData axisIndex;
  match hkcu !! saveCalibrationToRegistry_axisPath axisIndex with
  | Some hKey =>
      mret (<[saveCalibrationToRegistry_axisPath axisIndex :=
                <["Calibration"%string := AxisCalibration_bytes (axisData_of v)]> hKey]> hkcu)
  | None => mret hkcu
  end.

(** The value ["Calibration"] of a key, as [RegQueryValueExW] finds it. *)
Definition stored_calibration (hkcu : Registry) (path : string) : option (list Z) :=
  hKey ← hkcu !! path; hKey !! "Calibration"%string.

(** What one iteration of [readCalibrationData] gets. *)
Inductive ReadOutcome : Type :=
| KeyNotOpened
| QueryFailed
| Queried (data : list Z).

Definition readCalibrationData_axis (hkcu : Registry) (axisIndex : Z) : ReadOutcome :=
  match hkcu !! readCalibrationData_axisPath axisIndex with
  | Some hKey =>
      match hKey !! "Calibration"%string with
      | Some data => if (length data <=? 20)%nat then Queried data else QueryFailed
      | None => QueryFailed
      end
  | None => KeyNotOpened
  end.

Definition readCalibrationData (hkcu : Registry) : list ReadOutcome :=
  map (readCalibrationData_axis hkcu) [0; 1; 2].

(** ** The main window (mainwindow.h, mainwindow.cpp) *)

(** [struct CalibrationBackup]. *)
Record CalibrationBackup : Type := mkCalibrationBackup {
  x : AxisRange;
  z : AxisRange;
  ry : AxisRange
}.

(** The members of [MainWindow] the calibration logic works on, the values
    last given to the three progress bars, and the registry the window
    writes to. *)
Record MainWindow : Type := mkMainWindow {
  m_calibrated : bool;
  currentXRaw : Z;
  currentZRaw : Z;
  currentRYRaw : Z;
  xRange : AxisRange;
  zRange : AxisRange;
  ryRange : AxisRange;
  calibrationHistory : list CalibrationBackup;
  xCalBar : Z;
  zCalBar : Z;
  ryCalBar : Z;
  HKEY_CURRENT_USER : Registry
}.

Definition set_m_calibrated (b : bool) (w : MainWindow) : MainWindow :=
  mkMainWindow b (currentXRaw w) (currentZRaw w) (currentRYRaw w)
    (xRange w) (zRange w) (ryRange w) (calibrationHistory w)
    (xCalBar w) (zCalBar w) (ryCalBar w) (HKEY_CURRENT_USER w).

Definition set_raw (rx rz rry : Z) (w : MainWindow) : MainWindow :=
  mkMainWindow (m_calibrated w) rx rz rry
    (xRange w) (zRange w) (ryRange w) (calibrationHistory w)
    (xCalBar w) (zCalBar w) (ryCalBar w) (HKEY_CURRENT_USER w).

Definition set_xRange (r : AxisRange) (w : MainWindow) : MainWindow :=
  mkMainWindow (m_calibrated w) (currentXRaw w) (currentZRaw w) (currentRYRaw w)
    r (zRange w) (ryRange w) (calibrationHistory w)
    (xCalBar w) (zCalBar w) (ryCalBar w) (HKEY_CURRENT_USER w).

Definition set_zRange (r : AxisRange) (w : MainWindow) : MainWindow :=
  mkMainWindow (m_calibrated w) (currentXRaw w) (currentZRaw w) (currentRYRaw w)
    (xRange w) r (ryRange w) (calibrationHistory w)
    (xCalBar w) (zCalBar w) (ryCalBar w) (HKEY_CURRENT_USER w).

Definition set_ryRange (r : AxisRange) (w : MainWindow) : MainWindow :=
  mkMainWindow (m_calibrated w) (currentXRaw w) (currentZRaw w) (currentRYRaw w)
    (xRange w) (zRange w) r (calibrationHistory w)
    (xCalBar w) (zCalBar w) (ryCalBar w) (HKEY_CURRENT_USER w).

Definition set_calibrationHistory (h : list CalibrationBackup) (w : MainWindow)
  : MainWindow :=
  mkMainWindow (m_calibrated w) (currentXRaw w) (currentZRaw w) (currentRYRaw w)
    (xRange w) (zRange w) (ryRange w) h
    (xCalBar w) (zCalBar w) (ryCalBar w) (HKEY_CURRENT_USER w).

Definition set_CalBars (bx bz bry : Z) (w : MainWindow) : MainWindow :=
  mkMainWindow (m_calibrated w) (currentXRaw w) (currentZRaw w) (currentRYRaw w)
    (xRange w) (zRange w) (ryRange w) (calibrationHistory w)
    bx bz bry (HKEY_CURRENT_USER w).

Definition set_HKEY_CURRENT_USER (hkcu : Registry) (w : MainWindow) : MainWindow :=
  mkMainWindow (m_calibrated w) (currentXRaw w) (currentZRaw w) (currentRYRaw w)
    (xRange w) (zRange w) (ryRange w) (calibrationHistory w)
    (xCalBar w) (zCalBar w) (ryCalBar w) hkcu.

(** The window after its constructor: default ranges, raw values 0, flag
    off, no backup. *)
Definition MainWindow_init (hkcu : Registry) : MainWindow :=
  mkMainWindow false 0 0 0 default_range default_range default_range [] 0 0 0 hkcu.

(** What ends a slot of the window before its last statement. *)
Inductive Failure : Type :=
| Exception (e : exception)     (* thrown by the string functions *)
| DivisionByZero.               (* integer division by zero *)

Inductive Outcome (A : Type) : Type :=
| Done (a : A)
| Failed (f : Failure).
Arguments Done {A} a.
Arguments Failed {A} f.

#[export] Instance Outcome_ret : MRet Outcome := fun A a => Done a.
#[export] Instance Outcome_bind : MBind Outcome := fun A B k m =>
  match m with
  | Done a => k a
  | Failed f => Failed f
  end.

(** A call of [saveCalibrationToRegistry] from the window. *)
Definition save (calibrationData : string) (axisIndex : Z) (w : MainWindow)
  : Outcome MainWindow :=
  match saveCalibrationToRegistry calibrationData axisIndex (HKEY_CURRENT_USER w) with
  | Ok hkcu => Done (set_HKEY_CURRENT_USER hkcu w)
  | Throw e => Failed (Exception e)
  end.

Definition percent (p : option Z) : Outcome Z :=
  match p with
  | Some v => Done v
  | None => Failed DivisionByZero
  end.

(** The ranges [updateValues] hands to [updateAxis], each with its raw
    value (lines 500-502). *)
Definition updateAxis_calls (w : MainWindow) : list (Z * AxisRange) :=
  [(currentXRaw w, xRange w); (currentZRaw w, zRange w); (currentRYRaw w, ryRange w)].

(** [updateValues] on a tick.  [sample] is the device state already scaled to
    raw values (step 1 of the function, a floating-point product), [None]
    when there is no device or the poll failed twice.  The chart part
    (steps 2 to 4) works on floating-point values and is left out. *)
Definition updateValues (sample : option (Z * Z * Z)) (w : MainWindow)
  : Outcome MainWindow :=
  match sample with
  | None => mret w
  | Some (rx, rz, rry) =>
      let w := set_raw rx rz rry w in
      bx ← percent (updateAxis (currentXRaw w) (xRange w));
      bz ← percent (updateAxis (currentZRaw w) (zRange w));
      bry ← percent (updateAxis (currentRYRaw w) (ryRange w));
      mret (set_CalBars bx bz bry w)
  end.

(** The slots of the window.  The information boxes of [restoreDefaults] and
    [restoreLastCalibration] change no member and are left out. *)
Definition resetCalibration (w : MainWindow) : Outcome MainWindow :=
  let w := set_m_calibrated false w in
  let w := set_xRange {| min := 0; max := 4095 |} w in
  let w := set_zRange {| min := 0; max := 4095 |} w in
  let w := set_ryRange {| min := 0; max := 4095 |} w in
  let xCalibration := "MinX=0;MaxX=4095;"%string in
  let zCalibration := "MinZ=0;MaxZ=4095;"%string in
  let ryCalibration := "MinRY=0;MaxRY=4095;"%string in
  w ← save xCalibration 0 w;
  w ← save zCalibration 1 w;
  save ryCalibration 2 w.

Definition backupCurrentCalibration (w : MainWindow) : MainWindow :=
  let backup := {| x := xRange w; z := zRange w; ry := ryRange w |} in
  let h := calibrationHistory w ++ [backup] in
  set_calibrationHistory (if (10 <? length h)%nat then drop 1 h else h) w.

Definition restoreDefaults (w : MainWindow) : Outcome MainWindow :=
  let w := backupCurrentCalibration w in
  let w := set_m_calibrated false w in
  let w := set_xRange {| min := 0; max := 4095 |} w in
  let w := set_zRange {| min := 0; max := 4095 |} w in
  let w := set_ryRange {| min := 0; max := 4095 |} w in
  let xCalibration := "MinX=0;MaxX=4095;"%string in
  let zCalibration := "MinZ=0;MaxZ=4095;"%string in
  let ryCalibration := "MinRY=0;MaxRY=4095;"%string in
  w ← save xCalibration 0 w;
  w ← save zCalibration 1 w;
  save ryCalibration 2 w.

(** The calibration string built from a range in [restoreLastCalibration],
    [setAxisMin] and [setAxisMax]. *)
Definition calibration_string (name : string) (range : AxisRange) : string :=
  ("Min" +:+ name +:+ "=" +:+ to_wstring (min range)
   +:+ ";Max" +:+ name +:+ "=" +:+ to_wstring (max range) +:+ ";")%string.

Definition restoreLastCalibration (w : MainWindow) : Outcome MainWindow :=
  match last (calibrationHistory w) with
  | None => mret w
  | Some backup =>
      let w := set_xRange (x backup) w in
      let w := set_zRange (z backup) w in
      let w := set_ryRange (ry backup) w in
      let w := set_calibrationHistory (removelast (calibrationHistory w)) w in
      let xCalibration := calibration_string "X" (xRange w) in
      let zCalibration := calibration_string "Z" (zRange w) in
      let ryCalibration := calibration_string "RY" (ryRange w) in
      w ← save xCalibration 0 w;
      w ← save zCalibration 1 w;
      save ryCalibration 2 w
  end.

Definition setAxisMin (axis : Z) (w : MainWindow) : Outcome MainWindow :=
  match axis with
  | 0 =>
      let w := set_xRange {| min := currentXRaw w; max := max (xRange w) |} w in
      save (calibration_string "X" (xRange w)) 0 w
  | 1 =>
      let w := set_zRange {| min := currentZRaw w; max := max (zRange w) |} w in
      save (calibration_string "Z" (zRange w)) 1 w
  | 2 =>
      let w := set_ryRange {| min := currentRYRaw w; max := max (ryRange w) |} w in
      save (calibration_string "RY" (ryRange w)) 2 w
  | _ => mret w
  end.

Definition setAxisMax (axis : Z) (w : MainWindow) : Outcome MainWindow :=
  match axis with
  | 0 =>
      let w := set_xRange {| min := min (xRange w); max := currentXRaw w |} w in
      w ← save (calibration_string "X" (xRange w)) 0 w;
      mret (set_m_calibrated true w)
  | 1 =>
      let w := set_zRange {| min := min (zRange w); max := currentZRaw w |} w in
      w ← save (calibration_string "Z" (zRange w)) 1 w;
      mret (set_m_calibrated true w)
  | 2 =>
      let w := set_ryRange {| min := min (ryRange w); max := currentRYRaw w |} w in
      w ← save (calibration_string "RY" (ryRange w)) 2 w;
      mret (set_m_calibrated true w)
  | _ => mret w
  end.

(** The operations of the user, and the timer tick with its sample. *)
Inductive Operation : Type :=
| SetMin (axis : Z)
| SetMax (axis : Z)
| Reset
| RestoreDefaults
| RestoreLast
| Tick (sample : option (Z * Z * Z)).

Definition step (op : Operation) (w : MainWindow) : Outcome MainWindow :=
  match op with
  | SetMin axis => setAxisMin axis w
  | SetMax axis => setAxisMax axis w
  | Reset => resetCalibration w
  | RestoreDefaults => restoreDefaults w
  | RestoreLast => restoreLastCalibration w
  | Tick sample => updateValues sample w
  end.

Fixpoint run (ops : list Operation) (w : MainWindow) : Outcome MainWindow :=
  match ops with
  | [] => mret w
  | op :: rest => w' ← step op w; run rest w'
  end.

(** The samples a tick can deliver are [LONG] values. *)
Definition sample_ok (op : Operation) : Prop :=
  match op with
  | Tick (Some (rx, rz, rry)) => in_LONG rx /\ in_LONG rz /\ in_LONG rry
  | _ => True
  end.

(** The states of the window the operations lead to from its initial state. *)
Inductive reachable (hkcu : Registry) : MainWindow -> Prop :=
| reachable_init : reachable hkcu (MainWindow_init hkcu)
| reachable_step (op : Operation) (w w' : MainWindow) :
    reachable hkcu w -> sample_ok op -> step op w = Done w' -> reachable hkcu w'.

(** ** Vocabulary of the statements on the window *)

Definition LONG_range (r : AxisRange) : Prop := in_LONG (min r) /\ in_LONG (max r).

Definition LONG_backup (b : CalibrationBackup) : Prop :=
  LONG_range (x b) /\ LONG_range (z b) /\ LONG_range (ry b).

(** Every integer member of the window holds a [LONG] value. *)
Definition LONG_window (w : MainWindow) : Prop :=
  in_LONG (currentXRaw w) /\ in_LONG (currentZRaw w) /\ in_LONG (currentRYRaw w) /\
  LONG_range (xRange w) /\ LONG_range (zRange w) /\ LONG_range (ryRange w) /\
  Forall LONG_backup (calibrationHistory w).

(** The snapshot [backupCurrentCalibration] takes. *)
Definition snapshot (w : MainWindow) : CalibrationBackup :=
  {| x := xRange w; z := zRange w; ry := ryRange w |}.

(** The window with the three ranges of [b] as its current ranges. *)
Definition with_ranges (b : CalibrationBackup) (w : MainWindow) : MainWindow :=
  set_ryRange (ry b) (set_zRange (z b) (set_xRange (x b) w)).

(** One call of [backupCurrentCalibration] for each element of [bs], in
    order, the current ranges being that element at the time of the call. *)
Fixpoint backups (bs : list CalibrationBackup) (w : MainWindow) : MainWindow :=
  match bs with
  | [] => w
  | b :: rest => backups rest (backupCurrentCalibration (with_ranges b w))
  end.

(** Eleven distinct snapshots, to run the history on. *)
Definition sample_backup (n : Z) : CalibrationBackup :=
  {| x := {| min := n; max := 4095 |}; z := default_range; ry := default_range |}.

Definition is_axis (axis : Z) : bool := (axis =? 0) || (axis =? 1) || (axis =? 2).

(** The flag and the history an operation leaves. *)
Definition calibrated_after (op : Operation) (w : MainWindow) : bool :=
  match op with
  | SetMax axis => if is_axis axis then true else m_calibrated w
  | Reset | RestoreDefaults => false
  | SetMin _ | RestoreLast | Tick _ => m_calibrated w
  end.

Definition history_after (op : Operation) (w : MainWindow) : list CalibrationBackup :=
  match op with
  | RestoreDefaults =>
      let h := calibrationHistory w ++ [snapshot w] in
      if (10 <? length h)%nat then drop 1 h else h
  | RestoreLast => removelast (calibrationHistory w)
  | SetMin _ | SetMax _ | Reset | Tick _ => calibrationHistory w
  end.

(** ** Vocabulary of the statements on the parser *)

Fixpoint all_digits (s : string) : bool :=
  match s with
  | EmptyString => true
  | String c r => match digit_value c with Some _ => all_digits r | None => false end
  end.

Fixpoint no_semicolon (s : string) : bool :=
  match s with
  | EmptyString => true
  | String c r => if Ascii.eqb c ";" then false else no_semicolon r
  end.

(** The four variables a token can set. *)
Inductive Field : Type := FMin | FMax | FMinDeadzone | FMaxDeadzone.

Definition field_value (f : Field) (v : ParsedValues) : Z :=
  match f with
  | FMin => p_min v
  | FMax => p_max v
  | FMinDeadzone => p_minDeadzone v
  | FMaxDeadzone => p_maxDeadzone v
  end.

(** The prefix that announces a field for an axis index; none for an index
    without a [case]. *)
Definition field_prefix (axisIndex : Z) (f : Field) : option string :=
  match axisIndex, f with
  | 0, FMin => Some "MinX="
  | 0, FMax => Some "MaxX="
  | 0, FMinDeadzone => Some "MinDeadzoneX="
  | 0, FMaxDeadzone => Some "MaxDeadzoneX="
  | 1, FMin => Some "MinZ="
  | 1, FMax => Some "MaxZ="
  | 1, FMinDeadzone => Some "MinDeadzoneZ="
  | 1, FMaxDeadzone => Some "MaxDeadzoneZ="
  | 2, FMin => Some "MinRY="
  | 2, FMax => Some "MaxRY="
  | 2, FMinDeadzone => Some "MinDeadzoneRY="
  | 2, FMaxDeadzone => Some "MaxDeadzoneRY="
  | _, _ => None
  end%string.

Definition supplies (axisIndex : Z) (f : Field) (token : string) : bool :=
  match field_prefix axisIndex f with
  | Some p => find_at_0 token p
  | None => false
  end.

Definition recognized (axisIndex : Z) (token : string) : bool :=
  supplies axisIndex FMin token || supplies axisIndex FMax token
  || supplies axisIndex FMinDeadzone token || supplies axisIndex FMaxDeadzone token.

(** ** The Win32 front-end (main.cpp) *)

(** The raw percentage of [WindowProc] (lines 513-515). *)
Definition WindowProc_RawPercent (g_currentRaw : Z) : option Z :=
  LONG_div (wrapLONG (g_currentRaw * 100)) 4095.

(** The global variables of main.cpp the calibration works on, and the
    registry. *)
Record Globals : Type := mkGlobals {
  g_currentXRaw : Z;
  g_currentZRaw : Z;
  g_currentRYRaw : Z;
  g_xRange : AxisRange;
  g_zRange : AxisRange;
  g_ryRange : AxisRange;
  g_HKEY_CURRENT_USER : Registry
}.

(** The globals at program start. *)
Definition Globals_init (hkcu : Registry) : Globals :=
  mkGlobals 0 0 0 {| min := 0; max := 4095 |} {| min := 0; max := 4095 |}
    {| min := 0; max := 4095 |} hkcu.

Definition ResetCalibration (g : Globals) : Globals :=
  mkGlobals (g_currentXRaw g) (g_currentZRaw g) (g_currentRYRaw g)
    {| min := 0; max := 4095 |} {| min := 0; max := 4095 |} {| min := 0; max := 4095 |}
    (g_HKEY_CURRENT_USER g).

(** [SaveAxisCalibration]: the string stays empty for an index without a
    [case]. *)
Definition SaveAxisCalibration (axisIndex : Z) (g : Globals) : Outcome Globals :=
  let calibrationData :=
    match axisIndex with
    | 0 => ("MinX=" +:+ to_wstring (min (g_xRange g))
            +:+ ";MaxX=" +:+ to_wstring (max (g_xRange g)) +:+ ";")%string
    | 1 => ("MinZ=" +:+ to_wstring (min (g_zRange g))
            +:+ ";MaxZ=" +:+ to_wstring (max (g_zRange g)) +:+ ";")%string
    | 2 => ("MinRY=" +:+ to_wstring (min (g_ryRange g))
            +:+ ";MaxRY=" +:+ to_wstring (max (g_ryRange g)) +:+ ";")%string
    | _ => EmptyString
    end in
  match saveCalibrationToRegistry calibrationData axisIndex (g_HKEY_CURRENT_USER g) with
  | Ok hkcu =>
      Done (mkGlobals (g_currentXRaw g) (g_currentZRaw g) (g_currentRYRaw g)
              (g_xRange g) (g_zRange g) (g_ryRange g) hkcu)
  | Throw e => Failed (Exception e)
  end.

(** [LOWORD] and [HIWORD] of a 32-bit value. *)
Definition LOWORD (l : Z) : Z := Z.land l 65535.
Definition HIWORD (l : Z) : Z := Z.land (Z.shiftr l 16) 65535.

(** The messages of the main window the calibration depends on;
    [WM_USER] comes with the device state of the tick, scaled to raw values
    ([None]: no device, or no state). *)
Inductive Message : Type :=
| WM_COMMAND (wParam : Z)
| WM_USER (sample : option (Z * Z * Z)).

(** [WindowProc], cases [WM_COMMAND] and [WM_USER].  The six percentages of
    a tick go to the bars and the labels; they are computed, and a division
    by zero ends the call. *)
Definition WindowProc (uMsg : Message) (g : Globals) : Outcome Globals :=
  match uMsg with
  | WM_COMMAND wParam =>
      match LOWORD wParam with
      | 101 =>
          let g := ResetCalibration g in
          g ← SaveAxisCalibration 0 g;
          g ← SaveAxisCalibration 1 g;
          SaveAxisCalibration 2 g
      | 102 =>
          SaveAxisCalibration 0
            (mkGlobals (g_currentXRaw g) (g_currentZRaw g) (g_currentRYRaw g)
               {| min := g_currentXRaw g; max := max (g_xRange g) |}
               (g_zRange g) (g_ryRange g) (g_HKEY_CURRENT_USER g))
      | 103 =>
          SaveAxisCalibration 0
            (mkGlobals (g_currentXRaw g) (g_currentZRaw g) (g_currentRYRaw g)
               {| min := min (g_xRange g); max := g_currentXRaw g |}
               (g_zRange g) (g_ryRange g) (g_HKEY_CURRENT_USER g))
      | 104 =>
          SaveAxisCalibration 1
            (mkGlobals (g_currentXRaw g) (g_currentZRaw g) (g_currentRYRaw g)
               (g_xRange g) {| min := g_currentZRaw g; max := max (g_zRange g) |}
               (g_ryRange g) (g_HKEY_CURRENT_USER g))
      | 105 =>
          SaveAxisCalibration 1
            (mkGlobals (g_currentXRaw g) (g_currentZRaw g) (g_currentRYRaw g)
               (g_xRange g) {| min := min (g_zRange g); max := g_currentZRaw g |}
               (g_ryRange g) (g_HKEY_CURRENT_USER g))
      | 106 =>
          SaveAxisCalibration 2
            (mkGlobals (g_currentXRaw g) (g_currentZRaw g) (g_currentRYRaw g)
               (g_xRange g) (g_zRange g)
               {| min := g_currentRYRaw g; max := max (g_ryRange g) |}
               (g_HKEY_CURRENT_USER g))
      | 107 =>
          SaveAxisCalibration 2
            (mkGlobals (g_currentXRaw g) (g_currentZRaw g) (g_currentRYRaw g)
               (g_xRange g) (g_zRange g)
               {| min := min (g_ryRange g); max := g_currentRYRaw g |}
               (g_HKEY_CURRENT_USER g))
      | _ => mret g
      end
  | WM_USER None => mret g
  | WM_USER (Some (rx, rz, rry)) =>
      let g := mkGlobals rx rz rry (g_xRange g) (g_zRange g) (g_ryRange g)
                 (g_HKEY_CURRENT_USER g) in
      _ ← percent (WindowProc_RawPercent (g_currentXRaw g));
      _ ← percent (WindowProc_RawPercent (g_currentZRaw g));
      _ ← percent (WindowProc_RawPercent (g_currentRYRaw g));
      _ ← percent (WindowProc_CalPercent (g_currentXRaw g) (g_xRange g));
      _ ← percent (WindowProc_CalPercent (g_currentZRaw g) (g_zRange g));
      _ ← percent (WindowProc_CalPercent (g_currentRYRaw g) (g_ryRange g));
      mret g
  end.

(** ** The device enumeration (main.cpp, mainwindow.cpp) *)

(** What the callback sees of a device: the first field of its product
    GUID, and whether [CreateDevice] and [SetDataFormat] succeed on it. *)
Record DeviceInstance : Type := mkDeviceInstance {
  guidProduct_Data1 : Z;
  CreateDevice_ok : bool;
  SetDataFormat_ok : bool
}.

Inductive EnumResult : Type := DIENUM_CONTINUE | DIENUM_STOP.

(** [EnumDevicesCallback] (and the lambda of [MainWindow::initializeDevice],
    which has the same tests): the answer to the enumeration and the device
    held in [g_pDevice] after the call, which is null before it. *)
Definition EnumDevicesCallback (lpddi : DeviceInstance)
  : EnumResult * option DeviceInstance :=
  let vid := HIWORD (guidProduct_Data1 lpddi) in
  let pid := LOWORD (guidProduct_Data1 lpddi) in
  (* pid != 0x1DD2 || vid != 0x2735 *)
  if negb (pid =? 7634) || negb (vid =? 10037) then (DIENUM_CONTINUE, None)
  else if negb (CreateDevice_ok lpddi) then (DIENUM_CONTINUE, None)
  else if negb (SetDataFormat_ok lpddi) then (DIENUM_CONTINUE, None)
  else (DIENUM_STOP, Some lpddi).

(** [EnumDevices] over the attached game controllers, in their order: the
    device in [g_pDevice] when the enumeration ends. *)
Fixpoint EnumDevices (devices : list DeviceInstance) : option DeviceInstance :=
  match devices with
  | [] => None
  | lpddi :: rest =>
      match EnumDevicesCallback lpddi with
      | (DIENUM_STOP, g_pDevice) => g_pDevice
      | (DIENUM_CONTINUE, _) => EnumDevices rest
      end
  end.

(** ** The chart histories (mainwindow.cpp, [updateValues] step 3) *)

Definition GRAPH_HISTORY : nat := 100.

(** [xHistory.push_back(v); if (xHistory.size() > GRAPH_HISTORY)
    xHistory.pop_front();], on values of any type (they are doubles). *)
Definition history_push {double : Type} (v : double) (xHistory : list double)
  : list double :=
  let h := xHistory ++ [v] in
  if (GRAPH_HISTORY <? length h)%nat then drop 1 h else h.

(** One push per tick. *)
Definition history_pushes {double : Type} (vs : list double) (xHistory : list double)
  : list double :=
  fold_left (fun h v => history_push v h) vs xHistory.

(** ** The axis names (mainwindow.cpp) *)

(** [QSettings("SimCoaches", "TrackPro")]: the stored strings by key, the
    group being the prefix of the key. *)
Abbreviation Settings := (gmap string string).

Record AxisNames : Type := mkAxisNames {
  xAxisName : string;
  zAxisName : string;
  ryAxisName : string
}.

(** [settings.value(key, defaultValue).toString()]. *)
Definition settings_value (settings : Settings) (key defaultValue : string) : string :=
  match settings !! key with
  | Some v => v
  | None => defaultValue
  end.

Definition loadAxisNames (settings : Settings) : AxisNames :=
  {| xAxisName := settings_value settings "AxisNames/X" "X-Axis";
     zAxisName := settings_value settings "AxisNames/Z" "Z-Axis";
     ryAxisName := settings_value settings "AxisNames/RY" "RY-Axis" |}.

Definition saveAxisNames (names : AxisNames) (settings : Settings) : Settings :=
  <["AxisNames/RY"%string := ryAxisName names]>
    (<["AxisNames/Z"%string := zAxisName names]>
       (<["AxisNames/X"%string := xAxisName names]> settings)).

(** The rename button of an axis group ([createAxisGroup] is called with the
    indices 0, 1, 2 and the name of that axis): [ok] and [newName] are what
    the input dialog returns. *)
Definition renameAxis (axisIndex : Z) (ok : bool) (newName : string)
    (names : AxisNames) (settings : Settings) : AxisNames * Settings :=
  if ok && negb (String.eqb newName EmptyString) then
    match axisIndex with
    | 0 => (mkAxisNames newName (zAxisName names) (ryAxisName names),
            <["AxisNames/X"%string := newName]> settings)
    | 1 => (mkAxisNames (xAxisName names) newName (ryAxisName names),
            <["AxisNames/Z"%string := newName]> settings)
    | 2 => (mkAxisNames (xAxisName names) (zAxisName names) newName,
            <["AxisNames/RY"%string := newName]> settings)
    | _ => (names, settings)
    end
  else (names, settings).

(** ** Vocabulary of the further statements *)

(** The effect on the registry of a write of [axisData] for an axis index. *)
Definition write_record (axisIndex : Z) (axisData : AxisCalibration) (hkcu : Registry)
  : Registry :=
  match hkcu !! saveCalibrationToRegistry_axisPath axisIndex with
  | Some hKey =>
      <[saveCalibrationToRegistry_axisPath axisIndex :=
          <["Calibration"%string := AxisCalibration_bytes axisData]> hKey]> hkcu
  | None => hkcu
  end.

(** The record of a range: what a front-end persists for it. *)
Definition range_record (range : AxisRange) : AxisCalibration :=
  axisData_of {| p_min := wrapDWORD (min range); p_max := wrapDWORD (max range);
                 p_minDeadzone := 0; p_maxDeadzone := 0 |}.

(** The registry after the three writes of a reset or a restore. *)
Definition three_writes (rx rz rry : AxisRange) (hkcu : Registry) : Registry :=
  write_record 2 (range_record rry)
    (write_record 1 (range_record rz) (write_record 0 (range_record rx) hkcu)).

(** The range of an axis index in the window. *)
Definition range_of (axis : Z) (w : MainWindow) : AxisRange :=
  match axis with
  | 0 => xRange w
  | 1 => zRange w
  | _ => ryRange w
  end.

(** The axes whose record an operation writes. *)
Definition writes (op : Operation) (w : MainWindow) (axis : Z) : bool :=
  match op with
  | SetMin a | SetMax a => is_axis a && (a =? axis)
  | Reset | RestoreDefaults => is_axis axis
  | RestoreLast =>
      match last (calibrationHistory w) with
      | Some _ => is_axis axis
      | None => false
      end
  | Tick _ => false
  end.

(** The message of the Win32 window that stands for an operation of the Qt
    window, when there is one. *)
Definition message_of (op : Operation) : option Message :=
  match op with
  | Reset => Some (WM_COMMAND 101)
  | SetMin 0 => Some (WM_COMMAND 102)
  | SetMax 0 => Some (WM_COMMAND 103)
  | SetMin 1 => Some (WM_COMMAND 104)
  | SetMax 1 => Some (WM_COMMAND 105)
  | SetMin 2 => Some (WM_COMMAND 106)
  | SetMax 2 => Some (WM_COMMAND 107)
  | Tick sample => Some (WM_USER sample)
  | _ => None
  end.

(** The two front-ends hold the same raw values, ranges and registry. *)
Definition same_calibration (g : Globals) (w : MainWindow) : Prop :=
  g_currentXRaw g = currentXRaw w /\ g_currentZRaw g = currentZRaw w /\
  g_currentRYRaw g = currentRYRaw w /\
  g_xRange g = xRange w /\ g_zRange g = zRange w /\ g_ryRange g = ryRange w /\
  g_HKEY_CURRENT_USER g = HKEY_CURRENT_USER w.

(** The device the enumeration is after (the first field of its product GUID
    is 0x27351DD2), usable. *)
Definition usable_target (d : DeviceInstance) : bool :=
  (guidProduct_Data1 d =? 657792466) && CreateDevice_ok d && SetDataFormat_ok d.

(** ** Facts on the machine integers *)

Lemma wrapLONG_id (v : Z) : in_LONG v -> wrapLONG v = v.
Proof.
  unfold in_LONG, LONG_MIN, LONG_MAX, wrapLONG. intros Hv.
  rewrite Z.mod_small by lia. lia.
Qed.

Lemma wrapLONG_zero_iff (v : Z) :
  -4294967296 < v < 4294967296 -> wrapLONG v = 0 -> v = 0.
Proof.
  unfold wrapLONG. intros Hv H0.
  assert (Hm : (v + 2147483648) mod 4294967296 = 2147483648) by lia.
  pose proof (Z.div_mod (v + 2147483648) 4294967296 ltac:(lia)) as Hdm.
  rewrite Hm in Hdm.
  assert ((v + 2147483648) / 4294967296 = 0) by nia.
  nia.
Qed.

Lemma wrapDWORD_id (v : Z) : in_DWORD v -> wrapDWORD v = v.
Proof.
  unfold in_DWORD, ULONG_MAX, wrapDWORD. intros Hv. apply Z.mod_small. lia.
Qed.

Lemma wrapDWORD_range (v : Z) : in_DWORD (wrapDWORD v).
Proof.
  unfold in_DWORD, ULONG_MAX, wrapDWORD.
  pose proof (Z.mod_pos_bound v 4294967296 ltac:(lia)). lia.
Qed.

(** The two front-ends compute the same percentage. *)
Lemma WindowProc_CalPercent_updateAxis (raw : Z) (range : AxisRange) :
  WindowProc_CalPercent raw range = updateAxis raw range.
Proof. reflexivity. Qed.

(** The interpolation branch, when nothing overflows. *)
Lemma updateAxis_interpolate (raw : Z) (range : AxisRange) :
  in_LONG (min range) -> in_LONG (max range) ->
  (max range - min range) * 100 <= LONG_MAX ->
  min range < raw < max range ->
  updateAxis raw range = Some ((raw - min range) * 100 / (max range - min range)).
Proof.
  unfold in_LONG, LONG_MIN, LONG_MAX. intros Hmin Hmax Hspan Hraw.
  unfold updateAxis, LONG_div.
  destruct (Z.leb_spec raw (min range)) as [?|_]; [lia|].
  destruct (Z.geb_spec raw (max range)) as [?|_]; [lia|].
  rewrite (wrapLONG_id (raw - min range)) by (unfold in_LONG, LONG_MIN, LONG_MAX; lia).
  rewrite (wrapLONG_id ((raw - min range) * 100)) by (unfold in_LONG, LONG_MIN, LONG_MAX; nia).
  rewrite (wrapLONG_id (max range - min range)) by (unfold in_LONG, LONG_MIN, LONG_MAX; lia).
  destruct (Z.eqb_spec (max range - min range) 0) as [?|_]; [lia|].
  rewrite Z.quot_div_nonneg by lia.
  assert (Hq : 0 <= (raw - min range) * 100 / (max range - min range) <= 100).
  { split.
    - apply Z.div_pos; lia.
    - apply Z.div_le_upper_bound; nia. }
  rewrite wrapLONG_id by (unfold in_LONG, LONG_MIN, LONG_MAX; lia).
  reflexivity.
Qed.

Lemma updateAxis_low (raw : Z) (range : AxisRange) :
  raw <= min range -> updateAxis raw range = Some 0.
Proof.
  intros Hraw. unfold updateAxis.
  destruct (Z.leb_spec raw (min range)); [reflexivity | lia].
Qed.

Lemma updateAxis_high (raw : Z) (range : AxisRange) :
  min range < raw -> raw >= max range -> updateAxis raw range = Some 100.
Proof.
  intros Hlow Hraw. unfold updateAxis.
  destruct (Z.leb_spec raw (min range)); [lia |].
  destruct (Z.geb_spec raw (max range)); [reflexivity | lia].
Qed.

(** ** The normaliser on the default range *)

(** C3, as amended: on the default range {0,4095} the integer normaliser of
    both front-ends gives 0 for the raw value 0, 100 for 4095 and 50 for
    2048 (204800 / 4095 truncates to 50). *)
Theorem default_range_percentages :
  updateAxis 0 default_range = Some 0 /\
  updateAxis 4095 default_range = Some 100 /\
  updateAxis 2048 default_range = Some 50 /\
  WindowProc_CalPercent 0 default_range = Some 0 /\
  WindowProc_CalPercent 4095 default_range = Some 100 /\
  WindowProc_CalPercent 2048 default_range = Some 50.
Proof. repeat split; vm_compute; reflexivity. Qed.

(** C3 as stated fails: the raw value 2048 is not shown as 49. *)
Lemma default_range_2048_not_49 :
  ~ (updateAxis 0 default_range = Some 0 /\
     updateAxis 4095 default_range = Some 100 /\
     updateAxis 2048 default_range = Some 49).
Proof.
  intros (_ & _ & H). vm_compute in H. discriminate H.
Qed.

(** ** The normaliser in general *)

(** C5: for a range with min < max (whose span times 100 fits a LONG, as it
    does on the raw domain), the integer normaliser of both front-ends
    returns 0 when raw <= min, 100 when raw >= max, and otherwise the
    quotient (raw - min) * 100 / (max - min) rounded down; the result lies
    in [0,100]. *)
Theorem updateAxis_spec (raw : Z) (range : AxisRange) :
  in_LONG (min range) -> in_LONG (max range) ->
  min range < max range ->
  (max range - min range) * 100 <= LONG_MAX ->
  exists p : Z,
    updateAxis raw range = Some p /\
    WindowProc_CalPercent raw range = Some p /\
    (raw <= min range -> p = 0) /\
    (raw >= max range -> p = 100) /\
    (min range < raw < max range ->
     p = (raw - min range) * 100 / (max range - min range)) /\
    0 <= p <= 100.
Proof.
  intros Hmin Hmax Hlt Hspan.
  change (WindowProc_CalPercent raw range) with (updateAxis raw range).
  destruct (Z_le_gt_dec raw (min range)) as [Hlow | Hlow].
  - exists 0. rewrite updateAxis_low by exact Hlow.
    repeat split; intros; lia.
  - destruct (Z_ge_lt_dec raw (max range)) as [Hhigh | Hhigh].
    + exists 100. rewrite updateAxis_high by lia.
      repeat split; intros; lia.
    + exists ((raw - min range) * 100 / (max range - min range)).
      rewrite updateAxis_interpolate by (auto; lia).
      repeat split; intros; try lia.
      * apply Z.div_pos; lia.
      * apply Z.div_le_upper_bound; nia.
Qed.

Lemma updateAxis_spec_witness :
  (in_LONG (min (mkAxisRange 440 3790)) /\ in_LONG (max (mkAxisRange 440 3790)) /\
   min (mkAxisRange 440 3790) < max (mkAxisRange 440 3790) /\
   (max (mkAxisRange 440 3790) - min (mkAxisRange 440 3790)) * 100 <= LONG_MAX) /\
  exists p : Z,
    updateAxis 2115 (mkAxisRange 440 3790) = Some p /\
    WindowProc_CalPercent 2115 (mkAxisRange 440 3790) = Some p /\
    (2115 <= min (mkAxisRange 440 3790) -> p = 0) /\
    (2115 >= max (mkAxisRange 440 3790) -> p = 100) /\
    (min (mkAxisRange 440 3790) < 2115 < max (mkAxisRange 440 3790) ->
     p = (2115 - min (mkAxisRange 440 3790)) * 100
         / (max (mkAxisRange 440 3790) - min (mkAxisRange 440 3790))) /\
    0 <= p <= 100.
Proof.
  assert (H1 : in_LONG (min (mkAxisRange 440 3790))) by (vm_compute; split; discriminate).
  assert (H2 : in_LONG (max (mkAxisRange 440 3790))) by (vm_compute; split; discriminate).
  assert (H3 : min (mkAxisRange 440 3790) < max (mkAxisRange 440 3790)) by reflexivity.
  assert (H4 : (max (mkAxisRange 440 3790) - min (mkAxisRange 440 3790)) * 100 <= LONG_MAX)
    by (vm_compute; discriminate).
  split; [repeat split; assumption |].
  exact (updateAxis_spec 2115 (mkAxisRange 440 3790) H1 H2 H3 H4).
Defined.

(** ** The range validation *)

(** C1, as amended: on a range whose span fits a LONG, [validateAxisRange]
    shows the "Small Range" warning and returns false when min < max and
    the span is below 409; it shows "Invalid Range" and returns false when
    min >= max; it returns true, without a warning, only when the span is
    at least 409. *)
Theorem validateAxisRange_spec (range : AxisRange) :
  in_LONG (max range - min range) ->
  (min range < max range -> max range - min range < 409 ->
   validateAxisRange range = (false, Some SmallRange)) /\
  (min range >= max range ->
   validateAxisRange range = (false, Some InvalidRange)) /\
  (409 <= max range - min range ->
   validateAxisRange range = (true, None)) /\
  (fst (validateAxisRange range) = true <-> 409 <= max range - min range).
Proof.
  intros Hspan. unfold validateAxisRange.
  rewrite (wrapLONG_id _ Hspan).
  destruct (Z.geb_spec (min range) (max range)) as [Hge | Hlt];
    destruct (Z.ltb_spec (max range - min range) 409) as [Hn | Hw];
    cbn [fst]; repeat split; intros; try lia; try reflexivity; try discriminate.
Qed.

Lemma validateAxisRange_spec_witness :
  in_LONG (max (mkAxisRange 100 200) - min (mkAxisRange 100 200)) /\
  validateAxisRange (mkAxisRange 100 200) = (false, Some SmallRange).
Proof.
  assert (H : in_LONG (max (mkAxisRange 100 200) - min (mkAxisRange 100 200)))
    by (vm_compute; split; discriminate).
  split; [exact H |].
  apply (proj1 (validateAxisRange_spec (mkAxisRange 100 200) H)).
  - reflexivity.
  - reflexivity.
Defined.

(** C1 as stated fails: the range {100,200} of the scenario (min < max, span
    100 < 409) gets the warning, and the validation does not succeed. *)
Lemma validateAxisRange_narrow_rejected :
  min (mkAxisRange 100 200) < max (mkAxisRange 100 200) /\
  max (mkAxisRange 100 200) - min (mkAxisRange 100 200) < 409 /\
  snd (validateAxisRange (mkAxisRange 100 200)) = Some SmallRange /\
  fst (validateAxisRange (mkAxisRange 100 200)) <> true.
Proof.
  repeat split; vm_compute; discriminate.
Qed.

(** ** Decimal strings *)

Lemma digit_value_not_special (c : ascii) (d : Z) :
  digit_value c = Some d ->
  iswspace c = false /\ c <> "-"%char /\ c <> "+"%char /\ Ascii.eqb c ";" = false.
Proof.
  destruct c as [[] [] [] [] [] [] [] []]; vm_compute; intros H;
    try discriminate H; repeat split; discriminate.
Qed.

Lemma all_digits_no_semicolon (s : string) :
  all_digits s = true -> no_semicolon s = true.
Proof.
  induction s as [| c r IH]; simpl; [reflexivity |].
  destruct (digit_value c) as [d |] eqn:Hd; [| discriminate].
  destruct (digit_value_not_special c d Hd) as (_ & _ & _ & ->). exact IH.
Qed.

Lemma string_of_uint_all_digits (d : Decimal.uint) :
  all_digits (NilEmpty.string_of_uint d) = true.
Proof. induction d; simpl; auto. Qed.

Lemma stoul_digits_of_uint_acc (d : Decimal.uint) (acc : positive) :
  stoul_digits (NilEmpty.string_of_uint d) (Z.pos acc) = Z.pos (Pos.of_uint_acc d acc).
Proof.
  revert acc. induction d; intros acc; cbn [NilEmpty.string_of_uint stoul_digits Pos.of_uint_acc];
    [reflexivity | ..];
    match goal with
    | |- context [digit_value ?c] =>
        let v := eval vm_compute in (digit_value c) in
        change (digit_value c) with v; cbv iota beta
    end;
    rewrite <- IHd; f_equal; lia.
Qed.

Lemma stoul_digits_of_uint (d : Decimal.uint) :
  stoul_digits (NilEmpty.string_of_uint d) 0 = Z.of_N (Pos.of_uint d).
Proof.
  induction d; cbn [NilEmpty.string_of_uint stoul_digits Pos.of_uint];
    [reflexivity | ..];
    match goal with
    | |- context [digit_value ?c] =>
        let v := eval vm_compute in (digit_value c) in
        change (digit_value c) with v; cbv iota beta
    end;
    [exact IHd | ..];
    cbn [Z.of_N]; rewrite <- stoul_digits_of_uint_acc; reflexivity.
Qed.

Lemma string_of_pos_digits (p : positive) :
  NilZero.string_of_uint (Pos.to_uint p) = NilEmpty.string_of_uint (Pos.to_uint p)
  /\ starts_with_digit (NilEmpty.string_of_uint (Pos.to_uint p)) = true
  /\ stoul_digits (NilEmpty.string_of_uint (Pos.to_uint p)) 0 = Z.pos p.
Proof.
  pose proof (Unsigned.to_uint_nonnil p) as Hnil.
  pose proof (Unsigned.of_to p) as Hof.
  rewrite stoul_digits_of_uint, Hof.
  destruct (Pos.to_uint p); [congruence | ..]; repeat split; reflexivity.
Qed.

(** [stoul] on a text that starts with a digit, and on a minus sign followed
    by such a text. *)
Lemma stoul_unsigned (s : string) :
  starts_with_digit s = true ->
  stoul s = if stoul_digits s 0 >? ULONG_MAX then Throw out_of_range
            else Ok (stoul_digits s 0).
Proof.
  destruct s as [| c r]; [discriminate |].
  unfold starts_with_digit. destruct (digit_value c) as [d |] eqn:Hd; [| discriminate].
  intros _. destruct (digit_value_not_special c d Hd) as (Hsp & Hm & Hp & _).
  unfold stoul. cbn [skip_space]. rewrite Hsp.
  assert (Hsign : match String c r with
                  | String "-"%char r0 => (true, r0)
                  | String "+"%char r0 => (false, r0)
                  | _ => (false, String c r)
                  end = (false, String c r)).
  { destruct c as [[] [] [] [] [] [] [] []]; try reflexivity; congruence. }
  rewrite Hsign. cbn [starts_with_digit]. rewrite Hd. reflexivity.
Qed.

Lemma stoul_minus (s : string) :
  starts_with_digit s = true ->
  stoul (String "-" s) = if stoul_digits s 0 >? ULONG_MAX then Throw out_of_range
                         else Ok (wrapDWORD (- stoul_digits s 0)).
Proof.
  intros Hs. unfold stoul.
  change (skip_space (String "-" s)) with (String "-" s).
  cbv iota beta. rewrite Hs. reflexivity.
Qed.

(** Reading back what [to_wstring] printed: the value, as an unsigned long. *)
Lemma stoul_to_wstring (v : Z) :
  - ULONG_MAX <= v <= ULONG_MAX -> stoul (to_wstring v) = Ok (wrapDWORD v).
Proof.
  unfold ULONG_MAX. intros Hv. unfold to_wstring.
  destruct v as [| p | p]; cbn [Z.to_int NilZero.string_of_int].
  - reflexivity.
  - destruct (string_of_pos_digits p) as (-> & Hstart & Hval).
    rewrite (stoul_unsigned _ Hstart), Hval.
    destruct (Z.gtb_spec (Z.pos p) ULONG_MAX) as [Hgt | _]; [unfold ULONG_MAX in Hgt; lia |].
    rewrite wrapDWORD_id by (unfold in_DWORD, ULONG_MAX; lia). reflexivity.
  - destruct (string_of_pos_digits p) as (-> & Hstart & Hval).
    rewrite (stoul_minus _ Hstart), Hval.
    destruct (Z.gtb_spec (Z.pos p) ULONG_MAX) as [Hgt | _]; [unfold ULONG_MAX in Hgt; lia |].
    reflexivity.
Qed.

Lemma to_wstring_no_semicolon (v : Z) : no_semicolon (to_wstring v) = true.
Proof.
  unfold to_wstring.
  destruct v as [| p | p]; cbn [Z.to_int NilZero.string_of_int]; [reflexivity | ..];
    destruct (string_of_pos_digits p) as (-> & _ & _);
    [| cbn [no_semicolon]; change (Ascii.eqb "-" ";") with false; cbv iota];
    apply all_digits_no_semicolon, string_of_uint_all_digits.
Qed.

Lemma stoul_in_DWORD (s : string) (n : Z) : stoul s = Ok n -> in_DWORD n.
Proof.
  unfold stoul.
  destruct (match skip_space s with
            | String "-"%char r => (true, r)
            | String "+"%char r => (false, r)
            | _ => (false, skip_space s)
            end) as [negative s2].
  destruct (starts_with_digit s2); [| discriminate].
  destruct (Z.gtb_spec (stoul_digits s2 0) ULONG_MAX) as [| Hle]; [discriminate |].
  intros [= <-]. destruct negative.
  - apply wrapDWORD_range.
  - split; [| exact Hle].
    assert (Hnn : forall t a, 0 <= a -> 0 <= stoul_digits t a).
    { induction t as [| c r IH]; intros a Ha; simpl; [exact Ha |].
      destruct (digit_value c) as [d |] eqn:Hd; [| exact Ha].
      apply IH. unfold digit_value in Hd.
      destruct ((48 <=? Z.of_N (N_of_ascii c)) && (Z.of_N (N_of_ascii c) <=? 57)) eqn:Hc;
        [| discriminate].
      injection Hd as <-. apply andb_prop in Hc as [Hc _]. lia. }
    apply Hnn. lia.
Qed.

(** ** The parsing loop *)

Lemma append_String (c : ascii) (r s : string) :
  (String c r +:+ s)%string = String c (r +:+ s).
Proof. reflexivity. Qed.

Lemma append_empty (s : string) : ("" +:+ s)%string = s.
Proof. reflexivity. Qed.

Lemma tokens_app (t rest : string) :
  no_semicolon t = true -> tokens (t +:+ String ";" rest) = t :: tokens rest.
Proof.
  induction t as [| c r IH].
  - intros _. rewrite append_empty. reflexivity.
  - rewrite append_String. cbn [no_semicolon tokens].
    destruct (Ascii.eqb c ";"); [discriminate |].
    intros Hr. rewrite (IH Hr). reflexivity.
Qed.

Lemma find_at_0_app (token p : string) :
  find_at_0 token p = true -> exists rest, token = (p +:+ rest)%string.
Proof.
  unfold find_at_0. revert token.
  induction p as [| a p IH]; intros token.
  - intros _. exists token. reflexivity.
  - destruct token as [| b token]; cbn [String.prefix]; [discriminate |].
    destruct (ascii_dec a b) as [-> | _]; [| discriminate].
    intros Hp. destruct (IH token Hp) as [rest ->]. exists rest. reflexivity.
Qed.

Lemma find_at_0_append (p rest : string) : find_at_0 (p +:+ rest) p = true.
Proof.
  unfold find_at_0. induction p as [| a p IH].
  - rewrite append_empty. destruct rest; reflexivity.
  - rewrite append_String. cbn [String.prefix].
    destruct (ascii_dec a a) as [_ | Hne]; [exact IH | congruence].
Qed.

(** Evaluates the prefix tests on a token that is a literal prefix followed
    by an unknown rest. *)
Ltac eval_find_at_0 :=
  repeat match goal with
         | |- context [find_at_0 (?p +:+ ?rest) ?p] => rewrite (find_at_0_append p rest)
         | |- context [find_at_0 (?q +:+ ?rest) ?p] =>
             change (find_at_0 (q +:+ rest) p) with false
         end.

(** A token that starts with one of the deadzone prefixes is read from the
    position of its ["="]: [stoul] finds no digit there. *)
Lemma deadzone_token_throws (axisIndex : Z) (token : string) (v : ParsedValues) :
  supplies axisIndex FMinDeadzone token = true
  \/ supplies axisIndex FMaxDeadzone token = true ->
  parse_token axisIndex token v = Throw invalid_argument.
Proof.
  unfold supplies, parse_token.
  destruct axisIndex as [| [[| |] | [| |] |] |]; cbn [field_prefix];
    try (intros [H | H]; discriminate H);
    intros [H | H]; apply find_at_0_app in H as [rest ->];
    unfold parse_case; eval_find_at_0; reflexivity.
Qed.

Lemma parse_token_unrecognized (axisIndex : Z) (token : string) (v : ParsedValues) :
  recognized axisIndex token = false -> parse_token axisIndex token v = Ok v.
Proof.
  unfold recognized, supplies, parse_token, parse_case.
  destruct axisIndex as [| [[| |] | [| |] |] |]; cbn [field_prefix];
    try (intros _; reflexivity);
    intros H; repeat (apply orb_false_elim in H as [H ?]);
    repeat match goal with Hf : find_at_0 _ _ = false |- _ => rewrite Hf; clear Hf end;
    reflexivity.
Qed.

(** A token changes no field but the one whose prefix it starts with. *)
Lemma parse_token_field (axisIndex : Z) (token : string) (f : Field)
    (v v' : ParsedValues) :
  parse_token axisIndex token v = Ok v' ->
  supplies axisIndex f token = false ->
  field_value f v' = field_value f v.
Proof.
  unfold supplies, parse_token, parse_case.
  destruct axisIndex as [| [[| |] | [| |] |] |]; cbn [field_prefix];
    try (intros [= <-] _; reflexivity);
    repeat match goal with
           | |- context [if find_at_0 token ?p then _ else _] =>
               destruct (find_at_0 token p) eqn:?
           end;
    repeat (match goal with
            | |- context [substr token ?n] => destruct (substr token n) as [? | ?]
            | |- context [stoul ?t] => destruct (stoul t) as [? | ?]
            end; cbn);
    cbn; intros Hv Hf; try discriminate Hv; injection Hv as <-;
    destruct f; cbn in *; try reflexivity; congruence.
Qed.

Lemma parse_token_in_DWORD (axisIndex : Z) (token : string) (f : Field)
    (v v' : ParsedValues) :
  parse_token axisIndex token v = Ok v' ->
  (forall g, in_DWORD (field_value g v)) ->
  in_DWORD (field_value f v').
Proof.
  unfold parse_token, parse_case.
  destruct axisIndex as [| [[| |] | [| |] |] |];
    try (intros [= <-] Hall; apply Hall);
    repeat match goal with
           | |- context [if find_at_0 token ?p then _ else _] =>
               destruct (find_at_0 token p)
           end;
    repeat (match goal with
            | |- context [substr token ?n] => destruct (substr token n) as [? | ?]
            | |- context [stoul ?t] => destruct (stoul t) as [? | ?] eqn:Hst
            end; cbn);
    cbn; intros Hv Hall; try discriminate Hv; injection Hv as <-;
    try apply stoul_in_DWORD in Hst;
    pose proof (Hall FMin); pose proof (Hall FMax);
    pose proof (Hall FMinDeadzone); pose proof (Hall FMaxDeadzone);
    destruct f; cbn in *; assumption.
Qed.

Lemma parse_tokens_filter (axisIndex : Z) (ts : list string) (v : ParsedValues) :
  parse_tokens axisIndex ts v
  = parse_tokens axisIndex (List.filter (recognized axisIndex) ts) v.
Proof.
  revert v. induction ts as [| token rest IH]; intros v; [reflexivity |].
  cbn [List.filter parse_tokens].
  destruct (recognized axisIndex token) eqn:Hrec.
  - cbn [parse_tokens]. destruct (parse_token axisIndex token v) as [v' | e]; cbn.
    + apply IH.
    + reflexivity.
  - rewrite (parse_token_unrecognized _ _ _ Hrec). cbn. apply IH.
Qed.

Lemma parse_tokens_field (axisIndex : Z) (f : Field) (ts : list string)
    (v v' : ParsedValues) :
  parse_tokens axisIndex ts v = Ok v' ->
  (forall token, In token ts -> supplies axisIndex f token = false) ->
  field_value f v' = field_value f v.
Proof.
  revert v. induction ts as [| token rest IH]; intros v; cbn [parse_tokens].
  - intros [= <-] _. reflexivity.
  - destruct (parse_token axisIndex token v) as [v1 | e] eqn:Htok; cbn; [| discriminate].
    intros Hrest Hsup.
    rewrite (IH v1 Hrest) by (intros t Ht; apply Hsup; right; exact Ht).
    apply (parse_token_field _ _ _ _ _ Htok). apply Hsup. left. reflexivity.
Qed.

Lemma parse_tokens_in_DWORD (axisIndex : Z) (ts : list string) (v v' : ParsedValues) :
  parse_tokens axisIndex ts v = Ok v' ->
  (forall g, in_DWORD (field_value g v)) ->
  forall f, in_DWORD (field_value f v').
Proof.
  revert v. induction ts as [| token rest IH]; intros v; cbn [parse_tokens].
  - intros [= <-] Hall. exact Hall.
  - destruct (parse_token axisIndex token v) as [v1 | e] eqn:Htok; cbn; [| discriminate].
    intros Hrest Hall. apply (IH v1 Hrest).
    intros g. apply (parse_token_in_DWORD _ _ _ _ _ Htok Hall).
Qed.

(** No deadzone is ever set by a parse that ends without an exception. *)
Lemma parse_tokens_deadzones (axisIndex : Z) (ts : list string) (v v' : ParsedValues) :
  parse_tokens axisIndex ts v = Ok v' ->
  p_minDeadzone v' = p_minDeadzone v /\ p_maxDeadzone v' = p_maxDeadzone v.
Proof.
  revert v. induction ts as [| token rest IH]; intros v; cbn [parse_tokens].
  - intros [= <-]. split; reflexivity.
  - destruct (parse_token axisIndex token v) as [v1 | e] eqn:Htok; cbn; [| discriminate].
    intros Hrest. destruct (IH v1 Hrest) as [-> ->].
    destruct (supplies axisIndex FMinDeadzone token) eqn:Hmin.
    { rewrite deadzone_token_throws in Htok by (left; exact Hmin). discriminate Htok. }
    destruct (supplies axisIndex FMaxDeadzone token) eqn:Hmax.
    { rewrite deadzone_token_throws in Htok by (right; exact Hmax). discriminate Htok. }
    split.
    + exact (parse_token_field _ _ FMinDeadzone _ _ Htok Hmin).
    + exact (parse_token_field _ _ FMaxDeadzone _ _ Htok Hmax).
Qed.

(** ** The strings the front-ends build *)

Lemma no_semicolon_app (a b : string) :
  no_semicolon (a +:+ b) = no_semicolon a && no_semicolon b.
Proof.
  induction a as [| c r IH]; [reflexivity |].
  rewrite append_String. cbn [no_semicolon].
  destruct (Ascii.eqb c ";"); [reflexivity | exact IH].
Qed.

Lemma in_LONG_ULONG (v : Z) : in_LONG v -> - ULONG_MAX <= v <= ULONG_MAX.
Proof. unfold in_LONG, LONG_MIN, LONG_MAX, ULONG_MAX. lia. Qed.

(** The string "Min<name>=<min>;Max<name>=<max>;" of an axis is parsed back
    to the two bounds, as unsigned values, and to no deadzone. *)
Lemma parse_calibration_string (axis : Z) (name : string) (range : AxisRange) :
  (axis = 0 /\ name = "X"%string) \/ (axis = 1 /\ name = "Z"%string)
  \/ (axis = 2 /\ name = "RY"%string) ->
  in_LONG (min range) -> in_LONG (max range) ->
  parse_calibrationData (calibration_string name range) axis
  = Ok {| p_min := wrapDWORD (min range); p_max := wrapDWORD (max range);
          p_minDeadzone := 0; p_maxDeadzone := 0 |}.
Proof.
  intros Haxis Hmin%in_LONG_ULONG Hmax%in_LONG_ULONG.
  pose proof (to_wstring_no_semicolon (min range)) as Hs1.
  pose proof (to_wstring_no_semicolon (max range)) as Hs2.
  pose proof (stoul_to_wstring _ Hmin) as Hr1.
  pose proof (stoul_to_wstring _ Hmax) as Hr2.
  unfold parse_calibrationData.
  destruct Haxis as [[-> ->] | [[-> ->] | [-> ->]]].
  - change (calibration_string "X" range)
      with (("MinX=" +:+ to_wstring (min range))
            +:+ String ";" (("MaxX=" +:+ to_wstring (max range)) +:+ String ";" ""))%string.
    rewrite !tokens_app by (rewrite no_semicolon_app; assumption).
    cbn [tokens parse_tokens parse_token]. unfold parse_case. eval_find_at_0.
    change (substr ("MinX=" +:+ to_wstring (min range)) 5) with (Ok (to_wstring (min range))).
    change (substr ("MaxX=" +:+ to_wstring (max range)) 5) with (Ok (to_wstring (max range))).
    cbn [mbind Result_bind]. rewrite Hr1. cbn [mbind Result_bind mret Result_ret].
    eval_find_at_0. rewrite Hr2. reflexivity.
  - change (calibration_string "Z" range)
      with (("MinZ=" +:+ to_wstring (min range))
            +:+ String ";" (("MaxZ=" +:+ to_wstring (max range)) +:+ String ";" ""))%string.
    rewrite !tokens_app by (rewrite no_semicolon_app; assumption).
    cbn [tokens parse_tokens parse_token]. unfold parse_case. eval_find_at_0.
    change (substr ("MinZ=" +:+ to_wstring (min range)) 5) with (Ok (to_wstring (min range))).
    change (substr ("MaxZ=" +:+ to_wstring (max range)) 5) with (Ok (to_wstring (max range))).
    cbn [mbind Result_bind]. rewrite Hr1. cbn [mbind Result_bind mret Result_ret].
    eval_find_at_0. rewrite Hr2. reflexivity.
  - change (calibration_string "RY" range)
      with (("MinRY=" +:+ to_wstring (min range))
            +:+ String ";" (("MaxRY=" +:+ to_wstring (max range)) +:+ String ";" ""))%string.
    rewrite !tokens_app by (rewrite no_semicolon_app; assumption).
    cbn [tokens parse_tokens parse_token]. unfold parse_case. eval_find_at_0.
    change (substr ("MinRY=" +:+ to_wstring (min range)) 6) with (Ok (to_wstring (min range))).
    change (substr ("MaxRY=" +:+ to_wstring (max range)) 6) with (Ok (to_wstring (max range))).
    cbn [mbind Result_bind]. rewrite Hr1. cbn [mbind Result_bind mret Result_ret].
    eval_find_at_0. rewrite Hr2. reflexivity.
Qed.

(** ** The record in memory *)

Lemma DWORD_of_bytes_DWORD_bytes (v : Z) :
  in_DWORD v -> DWORD_of_bytes (DWORD_bytes v) = v.
Proof.
  unfold in_DWORD, ULONG_MAX, DWORD_of_bytes, DWORD_bytes. intros Hv.
  assert (H3 : (v / 16777216) mod 256 = v / 16777216).
  { apply Z.mod_small. split; [apply Z.div_pos; lia |].
    apply Z.div_lt_upper_bound; lia. }
  rewrite H3.
  replace (v / 65536) with (v / 256 / 256) by (rewrite Z.div_div by lia; reflexivity).
  replace (v / 16777216) with (v / 256 / 256 / 256)
    by (rewrite !Z.div_div by lia; reflexivity).
  pose proof (Z.div_mod v 256 ltac:(lia)).
  pose proof (Z.div_mod (v / 256) 256 ltac:(lia)).
  pose proof (Z.div_mod (v / 256 / 256) 256 ltac:(lia)).
  lia.
Qed.

Lemma length_AxisCalibration_bytes (a : AxisCalibration) :
  length (AxisCalibration_bytes a) = 20%nat.
Proof. reflexivity. Qed.

Lemma AxisCalibration_of_bytes_bytes (a : AxisCalibration) :
  in_DWORD (cal_min a) -> in_DWORD (cal_mid a) -> in_DWORD (cal_max a) ->
  in_DWORD (cal_minDeadzone a) -> in_DWORD (cal_maxDeadzone a) ->
  AxisCalibration_of_bytes (AxisCalibration_bytes a) = a.
Proof.
  intros H1 H2 H3 H4 H5. destruct a as [a1 a2 a3 a4 a5]; cbn [cal_min cal_mid cal_max
    cal_minDeadzone cal_maxDeadzone] in *.
  unfold AxisCalibration_of_bytes, AxisCalibration_bytes;
    cbn [cal_min cal_mid cal_max cal_minDeadzone cal_maxDeadzone].
  change (take 4 (DWORD_bytes a1 ++ DWORD_bytes a2 ++ DWORD_bytes a3
                  ++ DWORD_bytes a4 ++ DWORD_bytes a5)) with (DWORD_bytes a1).
  change (take 4 (drop 4 (DWORD_bytes a1 ++ DWORD_bytes a2 ++ DWORD_bytes a3
                  ++ DWORD_bytes a4 ++ DWORD_bytes a5))) with (DWORD_bytes a2).
  change (take 4 (drop 8 (DWORD_bytes a1 ++ DWORD_bytes a2 ++ DWORD_bytes a3
                  ++ DWORD_bytes a4 ++ DWORD_bytes a5))) with (DWORD_bytes a3).
  change (take 4 (drop 12 (DWORD_bytes a1 ++ DWORD_bytes a2 ++ DWORD_bytes a3
                  ++ DWORD_bytes a4 ++ DWORD_bytes a5))) with (DWORD_bytes a4).
  change (take 4 (drop 16 (DWORD_bytes a1 ++ DWORD_bytes a2 ++ DWORD_bytes a3
                  ++ DWORD_bytes a4 ++ DWORD_bytes a5))) with (DWORD_bytes a5).
  rewrite !DWORD_of_bytes_DWORD_bytes by assumption. reflexivity.
Qed.

Lemma initial_values_in_DWORD (g : Field) : in_DWORD (field_value g initial_values).
Proof. destruct g; vm_compute; split; discriminate. Qed.

Lemma mid_in_DWORD (a b : Z) : in_DWORD (wrapDWORD (a + b) / 2).
Proof.
  pose proof (wrapDWORD_range (a + b)) as H. unfold in_DWORD, ULONG_MAX in *.
  split; [apply Z.div_pos; lia |].
  apply Z.div_le_upper_bound; lia.
Qed.

(** ** Writing a record *)

Lemma saveCalibrationToRegistry_open (calibrationData : string) (axisIndex : Z)
    (hkcu : Registry) (hKey : gmap string (list Z)) (v : ParsedValues) :
  hkcu !! saveCalibrationToRegistry_axisPath axisIndex = Some hKey ->
  parse_calibrationData calibrationData axisIndex = Ok v ->
  saveCalibrationToRegistry calibrationData axisIndex hkcu
  = Ok (<[saveCalibrationToRegistry_axisPath axisIndex :=
            <["Calibration"%string := AxisCalibration_bytes (axisData_of v)]> hKey]> hkcu).
Proof.
  intros Hkey Hparse. unfold saveCalibrationToRegistry.
  rewrite Hparse. cbn [mbind Result_bind]. rewrite Hkey. reflexivity.
Qed.

Lemma saveCalibrationToRegistry_total (calibrationData : string) (axisIndex : Z)
    (hkcu : Registry) (v : ParsedValues) :
  parse_calibrationData calibrationData axisIndex = Ok v ->
  exists hkcu', saveCalibrationToRegistry calibrationData axisIndex hkcu = Ok hkcu'.
Proof.
  intros Hparse. unfold saveCalibrationToRegistry.
  rewrite Hparse. cbn [mbind Result_bind].
  destruct (hkcu !! saveCalibrationToRegistry_axisPath axisIndex); eexists; reflexivity.
Qed.

(** C9: whenever [saveCalibrationToRegistry] writes, the value stored under
    the key of the axis has 20 bytes, five little-endian [DWORD]s one after the
    other: min, mid, max and two deadzones.  Mid is computed from the min and
    max written, as (min+max)/2 in [DWORD] arithmetic, which is the floor of
    the half sum whenever the sum fits a [DWORD] (as on the raw domain); both
    deadzones are 0, on every write. *)
Theorem saveCalibrationToRegistry_record (calibrationData : string) (axisIndex : Z)
    (hkcu : Registry) (hKey : gmap string (list Z)) (v : ParsedValues) :
  hkcu !! saveCalibrationToRegistry_axisPath axisIndex = Some hKey ->
  parse_calibrationData calibrationData axisIndex = Ok v ->
  exists (hkcu' : Registry) (data : list Z),
    saveCalibrationToRegistry calibrationData axisIndex hkcu = Ok hkcu' /\
    stored_calibration hkcu' (saveCalibrationToRegistry_axisPath axisIndex) = Some data /\
    length data = 20%nat /\
    data = DWORD_bytes (p_min v) ++ DWORD_bytes (wrapDWORD (p_min v + p_max v) / 2)
           ++ DWORD_bytes (p_max v) ++ DWORD_bytes 0 ++ DWORD_bytes 0 /\
    AxisCalibration_of_bytes data
    = {| cal_min := p_min v; cal_mid := wrapDWORD (p_min v + p_max v) / 2;
         cal_max := p_max v; cal_minDeadzone := 0; cal_maxDeadzone := 0 |} /\
    (p_min v + p_max v <= ULONG_MAX ->
     cal_mid (AxisCalibration_of_bytes data) = (p_min v + p_max v) / 2).
Proof.
  intros Hkey Hparse.
  pose proof (parse_tokens_in_DWORD _ _ _ _ Hparse initial_values_in_DWORD) as Hrange.
  destruct (parse_tokens_deadzones _ _ _ _ Hparse) as [Hdz1 Hdz2].
  cbn [initial_values p_minDeadzone p_maxDeadzone] in Hdz1, Hdz2.
  assert (Hdata : axisData_of v
                  = {| cal_min := p_min v; cal_mid := wrapDWORD (p_min v + p_max v) / 2;
                       cal_max := p_max v; cal_minDeadzone := 0; cal_maxDeadzone := 0 |}).
  { unfold axisData_of. rewrite Hdz1, Hdz2. reflexivity. }
  assert (Hback : AxisCalibration_of_bytes (AxisCalibration_bytes (axisData_of v))
                  = axisData_of v).
  { rewrite Hdata. apply AxisCalibration_of_bytes_bytes; cbn.
    - exact (Hrange FMin).
    - apply mid_in_DWORD.
    - exact (Hrange FMax).
    - vm_compute; split; discriminate.
    - vm_compute; split; discriminate. }
  eexists. exists (AxisCalibration_bytes (axisData_of v)).
  split; [exact (saveCalibrationToRegistry_open _ _ _ _ _ Hkey Hparse) |].
  split.
  { unfold stored_calibration. rewrite lookup_insert_eq. cbn.
    apply lookup_insert_eq. }
  split; [reflexivity |].
  split; [rewrite Hdata; reflexivity |].
  split; [rewrite Hback; exact Hdata |].
  intros Hsum. rewrite Hback, Hdata. cbn [cal_mid].
  rewrite wrapDWORD_id; [reflexivity |].
  pose proof (Hrange FMin) as H1. pose proof (Hrange FMax) as H2.
  unfold in_DWORD in *. cbn [field_value] in H1, H2. lia.
Qed.

Lemma saveCalibrationToRegistry_record_witness :
  exists (hkcu' : Registry) (data : list Z),
    saveCalibrationToRegistry "MinX=440;MaxX=3790;" 0
      {[ saveCalibrationToRegistry_axisPath 0 := ∅ ]} = Ok hkcu' /\
    stored_calibration hkcu' (saveCalibrationToRegistry_axisPath 0) = Some data /\
    length data = 20%nat /\
    data = DWORD_bytes (p_min (mkParsedValues 440 3790 0 0))
           ++ DWORD_bytes (wrapDWORD (p_min (mkParsedValues 440 3790 0 0)
                                      + p_max (mkParsedValues 440 3790 0 0)) / 2)
           ++ DWORD_bytes (p_max (mkParsedValues 440 3790 0 0))
           ++ DWORD_bytes 0 ++ DWORD_bytes 0 /\
    AxisCalibration_of_bytes data
    = {| cal_min := p_min (mkParsedValues 440 3790 0 0);
         cal_mid := wrapDWORD (p_min (mkParsedValues 440 3790 0 0)
                               + p_max (mkParsedValues 440 3790 0 0)) / 2;
         cal_max := p_max (mkParsedValues 440 3790 0 0);
         cal_minDeadzone := 0; cal_maxDeadzone := 0 |} /\
    (p_min (mkParsedValues 440 3790 0 0) + p_max (mkParsedValues 440 3790 0 0) <= ULONG_MAX ->
     cal_mid (AxisCalibration_of_bytes data)
     = (p_min (mkParsedValues 440 3790 0 0) + p_max (mkParsedValues 440 3790 0 0)) / 2).
Proof.
  apply (saveCalibrationToRegistry_record "MinX=440;MaxX=3790;" 0
           {[ saveCalibrationToRegistry_axisPath 0 := ∅ ]} ∅ (mkParsedValues 440 3790 0 0)).
  - vm_compute. reflexivity.
  - vm_compute. reflexivity.
Defined.

(** ** Tokens without effect, and the defaults *)

(** C10: for every calibration string and axis index, the tokens that start
    with none of the prefixes of that axis have no effect on the parse; a
    field that no token supplies keeps its initial value (min 0, max 4095,
    deadzones 0) in every record the function goes on to write; and a string
    without any recognised token is written as the record
    {0, 2047, 4095, 0, 0}. *)
Theorem unrecognized_tokens_ignored (calibrationData : string) (axisIndex : Z) :
  parse_calibrationData calibrationData axisIndex
  = parse_tokens axisIndex
      (List.filter (recognized axisIndex) (tokens calibrationData)) initial_values /\
  (forall (v : ParsedValues) (f : Field),
     parse_calibrationData calibrationData axisIndex = Ok v ->
     (forall token, In token (tokens calibrationData) ->
                    supplies axisIndex f token = false) ->
     field_value f v = field_value f initial_values) /\
  ((forall token, In token (tokens calibrationData) ->
                  recognized axisIndex token = false) ->
   parse_calibrationData calibrationData axisIndex = Ok initial_values /\
   axisData_of initial_values = mkAxisCalibration 0 2047 4095 0 0 /\
   forall (hkcu : Registry) (hKey : gmap string (list Z)),
     hkcu !! saveCalibrationToRegistry_axisPath axisIndex = Some hKey ->
     exists hkcu' : Registry,
       saveCalibrationToRegistry calibrationData axisIndex hkcu = Ok hkcu' /\
       stored_calibration hkcu' (saveCalibrationToRegistry_axisPath axisIndex)
       = Some (AxisCalibration_bytes (mkAxisCalibration 0 2047 4095 0 0))).
Proof.
  split; [apply parse_tokens_filter |].
  split; [intros v f Hparse Hsup; exact (parse_tokens_field _ _ _ _ _ Hparse Hsup) |].
  intros Hnone.
  assert (Hparse : parse_calibrationData calibrationData axisIndex = Ok initial_values).
  { unfold parse_calibrationData. rewrite parse_tokens_filter.
    replace (List.filter (recognized axisIndex) (tokens calibrationData)) with (@nil string);
      [reflexivity |].
    symmetry. induction (tokens calibrationData) as [| token rest IH]; [reflexivity |].
    cbn [List.filter]. rewrite (Hnone token) by (left; reflexivity).
    apply IH. intros t Ht. apply Hnone. right. exact Ht. }
  split; [exact Hparse |].
  split; [reflexivity |].
  intros hkcu hKey Hkey. eexists.
  split; [exact (saveCalibrationToRegistry_open _ _ _ _ _ Hkey Hparse) |].
  unfold stored_calibration. rewrite lookup_insert_eq. cbn.
  apply lookup_insert_eq.
Qed.

Lemma unrecognized_tokens_ignored_witness :
  (forall token, In token (tokens "MinX=440;MaxX=3790;MinY=0;MaxY=4096;Deadzone=0;") ->
                 recognized 1 token = false) /\
  parse_calibrationData "MinX=440;MaxX=3790;MinY=0;MaxY=4096;Deadzone=0;" 1
  = Ok initial_values.
Proof.
  assert (Hnone : forall token,
    In token (tokens "MinX=440;MaxX=3790;MinY=0;MaxY=4096;Deadzone=0;") ->
    recognized 1 token = false).
  { intros token Hin. vm_compute in Hin.
    repeat (destruct Hin as [<- | Hin]; [vm_compute; reflexivity |]).
    destruct Hin. }
  split; [exact Hnone |].
  exact (proj1 (proj2 (proj2 (unrecognized_tokens_ignored
    "MinX=440;MaxX=3790;MinY=0;MaxY=4096;Deadzone=0;" 1)) Hnone)).
Defined.

(** The string of the test [testCalibrationHandling], written for axis 0. *)
Example testCalibrationHandling_record :
  parse_calibrationData "MinX=440;MaxX=3790;MinY=0;MaxY=4096;Deadzone=0;" 0
  = Ok (mkParsedValues 440 3790 0 0) /\
  axisData_of (mkParsedValues 440 3790 0 0) = mkAxisCalibration 440 2115 3790 0 0.
Proof. split; vm_compute; reflexivity. Qed.

(** A deadzone token ends the call with an exception: nothing is written. *)
Example deadzone_token_not_written (hkcu : Registry) :
  saveCalibrationToRegistry "MinX=440;MinDeadzoneX=4;" 0 hkcu = Throw invalid_argument.
Proof. reflexivity. Qed.

(** ** The keys *)

(** C2 fails on the code: [saveCalibrationToRegistry] writes the axes 0, 1, 2
    under the slots 0, 2, 4, and the iterations 0, 1, 2 of
    [readCalibrationData] read the slots 0, 1, 2.  Only the key of the X
    axis is the same; iteration 2 reads what was written for the Z axis. *)
Theorem readCalibrationData_key_mismatch :
  saveCalibrationToRegistry_axisPath 0 = (basePath +:+ "0")%string /\
  saveCalibrationToRegistry_axisPath 1 = (basePath +:+ "2")%string /\
  saveCalibrationToRegistry_axisPath 2 = (basePath +:+ "4")%string /\
  readCalibrationData_axisPath 0 = (basePath +:+ "0")%string /\
  readCalibrationData_axisPath 1 = (basePath +:+ "1")%string /\
  readCalibrationData_axisPath 2 = (basePath +:+ "2")%string /\
  readCalibrationData_axisPath 1 <> saveCalibrationToRegistry_axisPath 1 /\
  readCalibrationData_axisPath 2 <> saveCalibrationToRegistry_axisPath 2 /\
  readCalibrationData_axisPath 2 = saveCalibrationToRegistry_axisPath 1.
Proof.
  repeat split; try reflexivity; apply String.eqb_neq; vm_compute; reflexivity.
Qed.

(** ** The window: calls of the persistence *)

Lemma save_inv (calibrationData : string) (axisIndex : Z) (w w' : MainWindow) :
  save calibrationData axisIndex w = Done w' ->
  exists hkcu', w' = set_HKEY_CURRENT_USER hkcu' w.
Proof.
  unfold save.
  destruct (saveCalibrationToRegistry calibrationData axisIndex (HKEY_CURRENT_USER w))
    as [hkcu' | e]; [| discriminate].
  intros [= <-]. exists hkcu'. reflexivity.
Qed.

Lemma save_calibration_string (axis : Z) (name : string) (range : AxisRange)
    (w : MainWindow) :
  (axis = 0 /\ name = "X"%string) \/ (axis = 1 /\ name = "Z"%string)
  \/ (axis = 2 /\ name = "RY"%string) ->
  LONG_range range ->
  exists hkcu', save (calibration_string name range) axis w
                = Done (set_HKEY_CURRENT_USER hkcu' w).
Proof.
  intros Haxis [Hmin Hmax]. unfold save.
  destruct (saveCalibrationToRegistry_total _ _ (HKEY_CURRENT_USER w) _
              (parse_calibration_string axis name range Haxis Hmin Hmax)) as [hkcu' ->].
  exists hkcu'. reflexivity.
Qed.

(** The three writes that end [resetCalibration], [restoreDefaults] and
    [restoreLastCalibration]. *)
Lemma save_three (rx rz rry : AxisRange) (w : MainWindow) :
  LONG_range rx -> LONG_range rz -> LONG_range rry ->
  exists hkcu',
    (w1 ← save (calibration_string "X" rx) 0 w;
     w2 ← save (calibration_string "Z" rz) 1 w1;
     save (calibration_string "RY" rry) 2 w2)
    = Done (set_HKEY_CURRENT_USER hkcu' w).
Proof.
  intros Hx Hz Hry.
  destruct (save_calibration_string 0 "X" rx w ltac:(auto) Hx) as [h1 ->].
  cbn [mbind Outcome_bind].
  destruct (save_calibration_string 1 "Z" rz (set_HKEY_CURRENT_USER h1 w) ltac:(auto) Hz)
    as [h2 ->].
  cbn [mbind Outcome_bind].
  destruct (save_calibration_string 2 "RY" rry
              (set_HKEY_CURRENT_USER h2 (set_HKEY_CURRENT_USER h1 w)) ltac:(auto) Hry)
    as [h3 ->].
  exists h3. reflexivity.
Qed.

Lemma LONG_default_range : LONG_range default_range.
Proof. split; vm_compute; split; discriminate. Qed.

(** ** The window: each operation ends, and what it leaves *)

Lemma resetCalibration_Done (w : MainWindow) :
  exists hkcu',
    resetCalibration w
    = Done (mkMainWindow false (currentXRaw w) (currentZRaw w) (currentRYRaw w)
              default_range default_range default_range (calibrationHistory w)
              (xCalBar w) (zCalBar w) (ryCalBar w) hkcu').
Proof.
  unfold resetCalibration. cbv zeta.
  change "MinX=0;MaxX=4095;"%string with (calibration_string "X" default_range).
  change "MinZ=0;MaxZ=4095;"%string with (calibration_string "Z" default_range).
  change "MinRY=0;MaxRY=4095;"%string with (calibration_string "RY" default_range).
  match goal with
  | |- context [save _ 0 ?w0] =>
      destruct (save_three default_range default_range default_range w0
                  LONG_default_range LONG_default_range LONG_default_range) as [hkcu' ->]
  end.
  exists hkcu'. reflexivity.
Qed.

Lemma restoreDefaults_resetCalibration (w : MainWindow) :
  restoreDefaults w = resetCalibration (backupCurrentCalibration w).
Proof. reflexivity. Qed.

Lemma setAxisMin_Done (axis : Z) (w : MainWindow) :
  LONG_window w ->
  exists hkcu',
    setAxisMin axis w
    = Done (set_HKEY_CURRENT_USER hkcu'
              match axis with
              | 0 => set_xRange {| min := currentXRaw w; max := max (xRange w) |} w
              | 1 => set_zRange {| min := currentZRaw w; max := max (zRange w) |} w
              | 2 => set_ryRange {| min := currentRYRaw w; max := max (ryRange w) |} w
              | _ => w
              end).
Proof.
  intros (Hx & Hz & Hry & [_ Hxr] & [_ Hzr] & [_ Hryr] & _).
  unfold setAxisMin.
  destruct axis as [| [[| |] | [| |] |] |]; cbv zeta;
    try (exists (HKEY_CURRENT_USER w); destruct w; reflexivity);
    match goal with
    | |- context [save (calibration_string ?n ?r) ?a ?w0] =>
        destruct (save_calibration_string a n r w0 ltac:(auto)
                    ltac:(split; assumption)) as [hkcu' ->]
    end; exists hkcu'; reflexivity.
Qed.

Lemma setAxisMax_Done (axis : Z) (w : MainWindow) :
  LONG_window w ->
  exists hkcu',
    setAxisMax axis w
    = Done (set_HKEY_CURRENT_USER hkcu'
              match axis with
              | 0 => set_m_calibrated true
                       (set_xRange {| min := min (xRange w); max := currentXRaw w |} w)
              | 1 => set_m_calibrated true
                       (set_zRange {| min := min (zRange w); max := currentZRaw w |} w)
              | 2 => set_m_calibrated true
                       (set_ryRange {| min := min (ryRange w); max := currentRYRaw w |} w)
              | _ => w
              end).
Proof.
  intros (Hx & Hz & Hry & [Hxr _] & [Hzr _] & [Hryr _] & _).
  unfold setAxisMax.
  destruct axis as [| [[| |] | [| |] |] |]; cbv zeta;
    try (exists (HKEY_CURRENT_USER w); destruct w; reflexivity);
    match goal with
    | |- context [save (calibration_string ?n ?r) ?a ?w0] =>
        destruct (save_calibration_string a n r w0 ltac:(auto)
                    ltac:(split; assumption)) as [hkcu' ->]
    end; exists hkcu'; reflexivity.
Qed.

Lemma restoreLastCalibration_Done (w : MainWindow) :
  LONG_window w ->
  exists hkcu',
    restoreLastCalibration w
    = Done (set_HKEY_CURRENT_USER hkcu'
              match last (calibrationHistory w) with
              | None => w
              | Some backup =>
                  set_calibrationHistory (removelast (calibrationHistory w))
                    (with_ranges backup w)
              end).
Proof.
  intros (_ & _ & _ & _ & _ & _ & Hh).
  unfold restoreLastCalibration.
  destruct (last (calibrationHistory w)) as [backup |] eqn:Hlast.
  - assert (Hb : LONG_backup backup).
    { rewrite Forall_forall in Hh. apply Hh.
      apply last_Some_elem_of in Hlast. exact Hlast. }
    destruct Hb as (Hbx & Hbz & Hbry). cbv zeta.
    match goal with
    | |- context [save _ 0 ?w0] =>
        destruct (save_three (x backup) (z backup) (ry backup) w0 Hbx Hbz Hbry)
          as [hkcu' Hsave]
    end.
    exists hkcu'. exact Hsave.
  - exists (HKEY_CURRENT_USER w). destruct w; reflexivity.
Qed.

Lemma updateAxis_defined (raw : Z) (range : AxisRange) :
  LONG_range range -> exists p, updateAxis raw range = Some p.
Proof.
  unfold LONG_range, in_LONG, LONG_MIN, LONG_MAX. intros [Hmin Hmax].
  unfold updateAxis, LONG_div.
  destruct (Z.leb_spec raw (min range)) as [_ | Hlow]; [eexists; reflexivity |].
  destruct (Z.geb_spec raw (max range)) as [_ | Hhigh]; [eexists; reflexivity |].
  destruct (Z.eqb_spec (wrapLONG (max range - min range)) 0) as [Hzero | _];
    [| eexists; reflexivity].
  apply wrapLONG_zero_iff in Hzero; lia.
Qed.

(** With min >= max one of the two saturation tests succeeds, whatever the
    raw value: the division is not reached. *)
Lemma updateAxis_degenerate (raw : Z) (range : AxisRange) :
  min range >= max range ->
  updateAxis raw range = Some (if raw <=? min range then 0 else 100).
Proof.
  intros Hge. unfold updateAxis.
  destruct (Z.leb_spec raw (min range)) as [_ | Hlow]; [reflexivity |].
  destruct (Z.geb_spec raw (max range)) as [_ | Hhigh]; [reflexivity | lia].
Qed.

(** Closes a goal on the [LONG] values of a window built from a window that
    has them. *)
Ltac LONG_solve :=
  pose proof LONG_default_range as [? ?];
  repeat match goal with
         | H : LONG_window _ |- _ => destruct H as (? & ? & ? & ? & ? & ? & ?)
         | H : LONG_range _ |- _ => destruct H as [? ?]
         | H : LONG_backup _ |- _ => destruct H as (? & ? & ?)
         end;
  unfold LONG_window, LONG_range, LONG_backup, with_ranges; cbn in *; tauto.

Lemma updateValues_Done (sample : option (Z * Z * Z)) (w : MainWindow) :
  LONG_window w -> sample_ok (Tick sample) ->
  exists w', updateValues sample w = Done w' /\ LONG_window w' /\
             m_calibrated w' = m_calibrated w /\
             calibrationHistory w' = calibrationHistory w.
Proof.
  intros Hw Hs. pose proof Hw as (Hx & Hz & Hry & Hxr & Hzr & Hryr & Hh).
  destruct sample as [[[rx rz] rry] |]; cbn [updateValues].
  - destruct Hs as (Hrx & Hrz & Hrry).
    cbn [set_raw currentXRaw currentZRaw currentRYRaw xRange zRange ryRange].
    destruct (updateAxis_defined rx (xRange w) Hxr) as [bx ->].
    destruct (updateAxis_defined rz (zRange w) Hzr) as [bz ->].
    destruct (updateAxis_defined rry (ryRange w) Hryr) as [bry ->].
    eexists. split; [reflexivity |].
    split; [LONG_solve |]. split; reflexivity.
  - exists w. split; [reflexivity |]. split; [exact Hw |]. split; reflexivity.
Qed.

Lemma Forall_removelast {A : Type} (P : A -> Prop) (l : list A) :
  Forall P l -> Forall P (removelast l).
Proof.
  intros Hl. rewrite removelast_firstn_len. apply Forall_take. exact Hl.
Qed.

Lemma LONG_backupCurrentCalibration (w : MainWindow) :
  LONG_window w -> LONG_window (backupCurrentCalibration w).
Proof.
  intros Hw.
  assert (Hall : Forall LONG_backup (calibrationHistory (backupCurrentCalibration w))).
  { destruct Hw as (_ & _ & _ & Hxr & Hzr & Hryr & Hh).
    unfold backupCurrentCalibration. cbv zeta.
    cbn [calibrationHistory set_calibrationHistory].
    assert (Hall : Forall LONG_backup
                     (calibrationHistory w
                      ++ [{| x := xRange w; z := zRange w; ry := ryRange w |}])).
    { apply Forall_app. split; [exact Hh |].
      apply Forall_cons. split; [| apply Forall_nil_2].
      split; [exact Hxr |]. split; [exact Hzr | exact Hryr]. }
    destruct (10 <? _)%nat; [apply Forall_drop |]; exact Hall. }
  destruct Hw as (Hx & Hz & Hry & Hxr & Hzr & Hryr & _).
  split; [exact Hx |]. split; [exact Hz |]. split; [exact Hry |].
  split; [exact Hxr |]. split; [exact Hzr |]. split; [exact Hryr | exact Hall].
Qed.

(** Every operation ends on a window of [LONG] values, without an exception
    and without a division by zero, and leaves the flag and the history as
    [calibrated_after] and [history_after] say. *)
Lemma step_Done (op : Operation) (w : MainWindow) :
  LONG_window w -> sample_ok op ->
  exists w', step op w = Done w' /\ LONG_window w' /\
             m_calibrated w' = calibrated_after op w /\
             calibrationHistory w' = history_after op w.
Proof.
  intros Hw Hs.
  destruct op as [axis | axis | | | | sample]; cbn [step calibrated_after history_after].
  - destruct (setAxisMin_Done axis w Hw) as [hkcu' ->]. eexists. split; [reflexivity |].
    destruct axis as [| [[| |] | [| |] |] |];
      (split; [LONG_solve |]); split; reflexivity.
  - destruct (setAxisMax_Done axis w Hw) as [hkcu' ->]. eexists. split; [reflexivity |].
    destruct axis as [| [[| |] | [| |] |] |];
      (split; [LONG_solve |]); split; reflexivity.
  - destruct (resetCalibration_Done w) as [hkcu' ->]. eexists. split; [reflexivity |].
    split; [LONG_solve |]. split; reflexivity.
  - rewrite restoreDefaults_resetCalibration.
    destruct (resetCalibration_Done (backupCurrentCalibration w)) as [hkcu' ->].
    eexists. split; [reflexivity |].
    pose proof (LONG_backupCurrentCalibration w Hw) as Hw'.
    split; [| split; reflexivity].
    destruct Hw' as (? & ? & ? & _ & _ & _ & Hh'). clear Hw.
    pose proof LONG_default_range as Hd.
    unfold LONG_window. cbn [currentXRaw currentZRaw currentRYRaw xRange zRange ryRange
      calibrationHistory] in *. tauto.
  - destruct (restoreLastCalibration_Done w Hw) as [hkcu' ->].
    eexists. split; [reflexivity |].
    destruct Hw as (Hx & Hz & Hry & Hxr & Hzr & Hryr & Hh).
    destruct (last (calibrationHistory w)) as [backup |] eqn:Hlast.
    + assert (Hb : LONG_backup backup).
      { rewrite Forall_forall in Hh. apply Hh.
        apply last_Some_elem_of in Hlast. exact Hlast. }
      pose proof (Forall_removelast _ _ Hh) as Hh'.
      split; [| split; reflexivity].
      destruct Hb as (Hbx & Hbz & Hbry).
      unfold LONG_window, with_ranges.
      cbn [currentXRaw currentZRaw currentRYRaw xRange zRange ryRange calibrationHistory
           set_HKEY_CURRENT_USER set_calibrationHistory set_xRange set_zRange set_ryRange].
      tauto.
    + apply last_None in Hlast.
      split; [| split; [reflexivity | cbn; rewrite Hlast; reflexivity]].
      unfold LONG_window.
      cbn [currentXRaw currentZRaw currentRYRaw xRange zRange ryRange calibrationHistory
           set_HKEY_CURRENT_USER].
      tauto.
  - destruct (updateValues_Done sample w Hw Hs) as (w' & -> & Hw' & Hc & Hhist).
    exists w'. split; [reflexivity |]. split; [exact Hw' |]. split; assumption.
Qed.

Lemma LONG_MainWindow_init (hkcu : Registry) : LONG_window (MainWindow_init hkcu).
Proof.
  pose proof LONG_default_range as Hd.
  assert (H0 : in_LONG 0) by (vm_compute; split; discriminate).
  unfold LONG_window, MainWindow_init.
  cbn [currentXRaw currentZRaw currentRYRaw xRange zRange ryRange calibrationHistory].
  pose proof (Forall_nil_2 LONG_backup). tauto.
Qed.

Lemma reachable_LONG (hkcu : Registry) (w : MainWindow) :
  reachable hkcu w -> LONG_window w.
Proof.
  induction 1 as [| op w w' _ IH Hs Hstep]; [apply LONG_MainWindow_init |].
  destruct (step_Done op w IH Hs) as (w'' & Hstep' & Hw'' & _).
  rewrite Hstep in Hstep'. injection Hstep' as ->. exact Hw''.
Qed.

Lemma run_Done (ops : list Operation) (w : MainWindow) :
  LONG_window w -> Forall sample_ok ops ->
  exists w', run ops w = Done w' /\ LONG_window w' /\
             (m_calibrated w' = true ->
              m_calibrated w = true \/
              exists axis, In (SetMax axis) ops /\ is_axis axis = true).
Proof.
  intros Hw Hops. revert w Hw.
  induction Hops as [| op rest Hop _ IH]; intros w Hw; cbn [run].
  - exists w. split; [reflexivity |]. split; [exact Hw |]. intros Hc. left. exact Hc.
  - destruct (step_Done op w Hw Hop) as (w1 & -> & Hw1 & Hc1 & _).
    cbn [mbind Outcome_bind].
    destruct (IH w1 Hw1) as (w' & Hrun & Hw' & Hc').
    exists w'. split; [exact Hrun |]. split; [exact Hw' |].
    intros Hc. destruct (Hc' Hc) as [Hprev | (axis & Hin & Hax)].
    + rewrite Hc1 in Hprev.
      destruct op as [axis | axis | | | | sample]; cbn [calibrated_after] in Hprev;
        try (left; exact Hprev); try discriminate Hprev.
      destruct (is_axis axis) eqn:Hax; [| left; exact Hprev].
      right. exists axis. split; [left; reflexivity | exact Hax].
    + right. exists axis. split; [right; exact Hin | exact Hax].
Qed.

(** ** Degenerate ranges and the division *)

(** C4, as amended: no validation runs when a bound is set, so ranges with
    min = max are reached and handed to the normaliser; yet in every state
    the operations lead to from the default ranges, each call of the integer
    normaliser returns a percentage, the tick ends without a division by
    zero, and on a range with min >= max the normaliser returns 0 or 100
    from its saturation tests, before the division. *)
Theorem updateAxis_no_division_by_zero (hkcu : Registry) (w : MainWindow) :
  reachable hkcu w ->
  (forall raw range, In (raw, range) (updateAxis_calls w) ->
     exists p, updateAxis raw range = Some p /\
               (min range >= max range -> p = if raw <=? min range then 0 else 100)) /\
  (forall sample, sample_ok (Tick sample) ->
     exists w', updateValues sample w = Done w').
Proof.
  intros Hw%reachable_LONG. split.
  - intros raw range Hin.
    assert (Hr : LONG_range range).
    { destruct Hw as (_ & _ & _ & Hxr & Hzr & Hryr & _).
      destruct Hin as [[= <- <-] | [[= <- <-] | [[= <- <-] | []]]]; assumption. }
    destruct (updateAxis_defined raw range Hr) as [p Hp].
    exists p. split; [exact Hp |].
    intros Hge. rewrite (updateAxis_degenerate raw range Hge) in Hp.
    injection Hp as <-. reflexivity.
  - intros sample Hs.
    destruct (updateValues_Done sample w Hw Hs) as (w' & Hw' & _).
    exists w'. exact Hw'.
Qed.

Lemma updateAxis_no_division_by_zero_witness :
  reachable ∅ (MainWindow_init ∅) /\
  exists w', updateValues (Some (2048, 0, 4095)) (MainWindow_init ∅) = Done w'.
Proof.
  assert (Hr : reachable ∅ (MainWindow_init ∅)) by constructor.
  split; [exact Hr |].
  apply (proj2 (updateAxis_no_division_by_zero ∅ (MainWindow_init ∅) Hr)
           (Some (2048, 0, 4095))).
  vm_compute. repeat split; discriminate.
Defined.

(** C4 as stated fails: "Set Maximum" on the X axis of the initial window,
    whose raw value is 0, gives the X range {0,0}; the next tick hands this
    range to the normaliser, and the divisor of the chart scaling is 0. *)
Lemma degenerate_range_reached :
  exists w : MainWindow,
    reachable ∅ w /\
    run [SetMax 0] (MainWindow_init ∅) = Done w /\
    xRange w = {| min := 0; max := 0 |} /\
    min (xRange w) = max (xRange w) /\
    In (currentXRaw w, xRange w) (updateAxis_calls w) /\
    scaled_divisor (xRange w) = 0.
Proof.
  exists (mkMainWindow true 0 0 0 {| min := 0; max := 0 |} default_range default_range
            [] 0 0 0 ∅).
  split.
  { apply (reachable_step ∅ (SetMax 0) (MainWindow_init ∅)).
    - constructor.
    - exact I.
    - vm_compute. reflexivity. }
  split; [vm_compute; reflexivity |].
  split; [reflexivity |]. split; [reflexivity |].
  split; [left; reflexivity | reflexivity].
Qed.

(** ** The calibrated flag *)

(** C6: the flag is off in the initial window; an operation that finds it off
    and leaves it on is a set-max call on one of the three axes, and in every
    sequence of operations that ends with the flag on there is such a call;
    setting a min bound leaves the flag as it was. *)
Theorem calibrated_only_by_setAxisMax :
  (forall hkcu, m_calibrated (MainWindow_init hkcu) = false) /\
  (forall op w, LONG_window w -> sample_ok op ->
     exists w', step op w = Done w' /\
       (m_calibrated w = false -> m_calibrated w' = true ->
        exists axis, op = SetMax axis /\ is_axis axis = true)) /\
  (forall ops hkcu, Forall sample_ok ops ->
     exists w', run ops (MainWindow_init hkcu) = Done w' /\
       (m_calibrated w' = true ->
        exists axis, In (SetMax axis) ops /\ is_axis axis = true)) /\
  (forall axis w, LONG_window w ->
     exists w', setAxisMin axis w = Done w' /\ m_calibrated w' = m_calibrated w).
Proof.
  split; [reflexivity |]. split; [| split].
  - intros op w Hw Hs.
    destruct (step_Done op w Hw Hs) as (w' & Hstep & _ & Hc & _).
    exists w'. split; [exact Hstep |].
    intros Hoff Hon. rewrite Hc in Hon.
    destruct op as [axis | axis | | | | sample]; cbn [calibrated_after] in Hon;
      try congruence.
    destruct (is_axis axis) eqn:Hax; [| congruence].
    exists axis. split; [reflexivity | exact Hax].
  - intros ops hkcu Hops.
    destruct (run_Done ops (MainWindow_init hkcu) (LONG_MainWindow_init hkcu) Hops)
      as (w' & Hrun & _ & Hc).
    exists w'. split; [exact Hrun |].
    intros Hon. destruct (Hc Hon) as [Hinit | Hex]; [discriminate Hinit | exact Hex].
  - intros axis w Hw.
    destruct (step_Done (SetMin axis) w Hw I) as (w' & Hstep & _ & Hc & _).
    exists w'. split; [exact Hstep | exact Hc].
Qed.

Lemma calibrated_only_by_setAxisMax_witness :
  Forall sample_ok [Tick (Some (440, 0, 0)); SetMin 0; Tick (Some (3790, 0, 0)); SetMax 0] /\
  exists w',
    run [Tick (Some (440, 0, 0)); SetMin 0; Tick (Some (3790, 0, 0)); SetMax 0]
      (MainWindow_init ∅) = Done w' /\
    (m_calibrated w' = true ->
     exists axis,
       In (SetMax axis)
          [Tick (Some (440, 0, 0)); SetMin 0; Tick (Some (3790, 0, 0)); SetMax 0] /\
       is_axis axis = true).
Proof.
  assert (Hops : Forall sample_ok
            [Tick (Some (440, 0, 0)); SetMin 0; Tick (Some (3790, 0, 0)); SetMax 0]).
  { repeat constructor; vm_compute; discriminate. }
  split; [exact Hops |].
  exact (proj1 (proj2 (proj2 calibrated_only_by_setAxisMax)) _ ∅ Hops).
Defined.

(** ** Reset and restore defaults *)

(** C7: [restoreDefaults] is [backupCurrentCalibration], which appends the
    snapshot of the current ranges to the history, followed by what
    [resetCalibration] does; both leave the three ranges at {0,4095} and the
    flag off; [resetCalibration] leaves the history as it was, and so does
    every operation but [restoreDefaults], except that restore-last removes
    the last entry. *)
Theorem restoreDefaults_backup_then_reset :
  (forall w, restoreDefaults w = resetCalibration (backupCurrentCalibration w)) /\
  (forall w,
     calibrationHistory (backupCurrentCalibration w)
     = (let h := calibrationHistory w ++ [snapshot w] in
        if (10 <? length h)%nat then drop 1 h else h) /\
     snapshot (backupCurrentCalibration w) = snapshot w /\
     m_calibrated (backupCurrentCalibration w) = m_calibrated w) /\
  (forall w, exists w',
     resetCalibration w = Done w' /\
     xRange w' = default_range /\ zRange w' = default_range /\
     ryRange w' = default_range /\ m_calibrated w' = false /\
     calibrationHistory w' = calibrationHistory w) /\
  (forall w, exists w',
     restoreDefaults w = Done w' /\
     xRange w' = default_range /\ zRange w' = default_range /\
     ryRange w' = default_range /\ m_calibrated w' = false /\
     calibrationHistory w' = calibrationHistory (backupCurrentCalibration w)) /\
  (forall op w, LONG_window w -> sample_ok op -> op <> RestoreDefaults ->
     exists w', step op w = Done w' /\
       (calibrationHistory w' = calibrationHistory w \/
        calibrationHistory w' = removelast (calibrationHistory w))).
Proof.
  split; [intros w; reflexivity |].
  split; [intros w; repeat split; reflexivity |].
  split; [| split].
  - intros w. destruct (resetCalibration_Done w) as [hkcu' ->].
    eexists. split; [reflexivity |]. repeat split; reflexivity.
  - intros w. rewrite restoreDefaults_resetCalibration.
    destruct (resetCalibration_Done (backupCurrentCalibration w)) as [hkcu' ->].
    eexists. split; [reflexivity |]. repeat split; reflexivity.
  - intros op w Hw Hs Hop.
    destruct (step_Done op w Hw Hs) as (w' & Hstep & _ & _ & Hh).
    exists w'. split; [exact Hstep |]. rewrite Hh.
    destruct op; cbn [history_after]; auto. congruence.
Qed.

Lemma restoreDefaults_backup_then_reset_witness :
  (LONG_window (MainWindow_init ∅) /\ sample_ok Reset /\ Reset <> RestoreDefaults) /\
  exists w', step Reset (MainWindow_init ∅) = Done w' /\
    (calibrationHistory w' = calibrationHistory (MainWindow_init ∅) \/
     calibrationHistory w' = removelast (calibrationHistory (MainWindow_init ∅))).
Proof.
  assert (H1 : LONG_window (MainWindow_init ∅)) by apply LONG_MainWindow_init.
  assert (H2 : sample_ok Reset) by exact I.
  assert (H3 : Reset <> RestoreDefaults) by discriminate.
  split; [split; [exact H1 | split; [exact H2 | exact H3]] |].
  exact (proj2 (proj2 (proj2 (proj2 restoreDefaults_backup_then_reset)))
           Reset (MainWindow_init ∅) H1 H2 H3).
Defined.

(** ** The bounded history *)

Lemma push_drop {A : Type} (all : list A) (b : A) :
  (let h := drop (length all - 10) all ++ [b] in
   if (10 <? length h)%nat then drop 1 h else h)
  = drop (length (all ++ [b]) - 10) (all ++ [b]).
Proof.
  cbv zeta. rewrite !length_app, length_drop. cbn [length].
  destruct (Nat.ltb_spec 10 (length all - (length all - 10) + 1)) as [Hfull | Hroom].
  - rewrite <- drop_app_le by lia. rewrite drop_drop. f_equal. lia.
  - replace (length all - 10)%nat with 0%nat by lia.
    replace (length all + 1 - 10)%nat with 0%nat by lia. reflexivity.
Qed.

Lemma snapshot_with_ranges (b : CalibrationBackup) (w : MainWindow) :
  snapshot (with_ranges b w) = b.
Proof. destruct b; reflexivity. Qed.

Lemma backups_history (bs all : list CalibrationBackup) (w : MainWindow) :
  calibrationHistory w = drop (length all - 10) all ->
  calibrationHistory (backups bs w) = drop (length (all ++ bs) - 10) (all ++ bs).
Proof.
  revert all w. induction bs as [| b rest IH]; intros all w Hw; cbn [backups].
  - rewrite app_nil_r. exact Hw.
  - rewrite (IH (all ++ [b])).
    + rewrite <- app_assoc. reflexivity.
    + rewrite <- push_drop, <- Hw. unfold backupCurrentCalibration.
      fold (snapshot (with_ranges b w)). rewrite snapshot_with_ranges. reflexivity.
Qed.

(** C8: [backupCurrentCalibration] appends the snapshot at the end of the
    history and, when the size then exceeds 10, erases the entry at index 0;
    from an empty history, any number of backups leaves the last 10 of them,
    in the order of the calls, and 11 backups leave exactly the 10 that
    followed the first. *)
Theorem backup_evicts_oldest :
  (forall w,
     calibrationHistory (backupCurrentCalibration w)
     = (let h := calibrationHistory w ++ [snapshot w] in
        if (10 <? length h)%nat then drop 1 h else h)) /\
  (forall bs w, calibrationHistory w = [] ->
     calibrationHistory (backups bs w) = drop (length bs - 10) bs) /\
  (forall b0 rest w, calibrationHistory w = [] -> length (b0 :: rest) = 11%nat ->
     calibrationHistory (backups (b0 :: rest) w) = rest /\
     length (calibrationHistory (backups (b0 :: rest) w)) = 10%nat /\
     (forall i, calibrationHistory (backups (b0 :: rest) w) !! i
                = (b0 :: rest) !! S i)).
Proof.
  assert (Hgen : forall bs w, calibrationHistory w = [] ->
            calibrationHistory (backups bs w) = drop (length bs - 10) bs).
  { intros bs w Hw. apply (backups_history bs [] w). rewrite Hw. reflexivity. }
  split; [intros w; reflexivity |].
  split; [exact Hgen |].
  intros b0 rest w Hw Hlen.
  rewrite (Hgen _ w Hw), Hlen.
  change (drop (11 - 10) (b0 :: rest)) with rest.
  split; [reflexivity |].
  split; [cbn [length] in Hlen; lia | intros i; reflexivity].
Qed.

Lemma backup_evicts_oldest_witness :
  calibrationHistory
    (backups [sample_backup 0; sample_backup 1; sample_backup 2; sample_backup 3;
              sample_backup 4; sample_backup 5; sample_backup 6; sample_backup 7;
              sample_backup 8; sample_backup 9; sample_backup 10] (MainWindow_init ∅))
  = [sample_backup 1; sample_backup 2; sample_backup 3; sample_backup 4; sample_backup 5;
     sample_backup 6; sample_backup 7; sample_backup 8; sample_backup 9; sample_backup 10].
Proof.
  apply (proj2 (proj2 backup_evicts_oldest) (sample_backup 0)
           [sample_backup 1; sample_backup 2; sample_backup 3; sample_backup 4;
            sample_backup 5; sample_backup 6; sample_backup 7; sample_backup 8;
            sample_backup 9; sample_backup 10] (MainWindow_init ∅)).
  - reflexivity.
  - reflexivity.
Defined.

(** ** A calibration session *)

(** The X axis is calibrated from 440 to 3790 on a registry that holds the
    key of the axis: the record stored is {440, 2115, 3790, 0, 0}, and the
    flag is off after the min bound, on after the max bound. *)
Example calibrate_X_440_3790 :
  let hkcu : Registry := {[ saveCalibrationToRegistry_axisPath 0 := ∅ ]} in
  (m_calibrated <$>
     match run [Tick (Some (440, 0, 0)); SetMin 0] (MainWindow_init hkcu) with
     | Done w => Some w
     | Failed _ => None
     end) = Some false /\
  match run [Tick (Some (440, 0, 0)); SetMin 0; Tick (Some (3790, 0, 0)); SetMax 0]
          (MainWindow_init hkcu) with
  | Done w =>
      m_calibrated w = true /\
      xRange w = {| min := 440; max := 3790 |} /\
      (AxisCalibration_of_bytes <$>
         stored_calibration (HKEY_CURRENT_USER w) (saveCalibrationToRegistry_axisPath 0))
      = Some (mkAxisCalibration 440 2115 3790 0 0)
  | Failed _ => False
  end.
Proof. vm_compute. repeat split; reflexivity. Qed.

(** ** Further properties: the normaliser *)

(** X1: on a range with min < max whose span times 100 fits a LONG, the
    percentage of the integer normaliser does not decrease when the raw
    value grows. *)
Theorem updateAxis_monotone (raw1 raw2 : Z) (range : AxisRange) (p1 p2 : Z) :
  in_LONG (min range) -> in_LONG (max range) ->
  min range < max range ->
  (max range - min range) * 100 <= LONG_MAX ->
  raw1 <= raw2 ->
  updateAxis raw1 range = Some p1 -> updateAxis raw2 range = Some p2 ->
  p1 <= p2.
Proof.
  intros Hmin Hmax Hlt Hspan Hle H1 H2.
  assert (Hint : forall raw, min range < raw < max range ->
            updateAxis raw range = Some ((raw - min range) * 100 / (max range - min range))
            /\ 0 <= (raw - min range) * 100 / (max range - min range) <= 100).
  { intros raw Hraw. split; [apply updateAxis_interpolate; assumption |].
    split; [apply Z.div_pos; lia | apply Z.div_le_upper_bound; nia]. }
  destruct (Z_le_gt_dec raw1 (min range)) as [Hl1 | Hl1].
  - rewrite updateAxis_low in H1 by exact Hl1. injection H1 as <-.
    destruct (Z_le_gt_dec raw2 (min range)) as [Hl2 | Hl2].
    + rewrite updateAxis_low in H2 by exact Hl2. injection H2 as <-. lia.
    + destruct (Z_ge_lt_dec raw2 (max range)) as [Hh2 | Hh2].
      * rewrite updateAxis_high in H2 by lia. injection H2 as <-. lia.
      * destruct (Hint raw2 ltac:(lia)) as [E2 B2]. rewrite E2 in H2.
        injection H2 as <-. lia.
  - destruct (Z_ge_lt_dec raw2 (max range)) as [Hh2 | Hh2].
    + rewrite updateAxis_high in H2 by lia. injection H2 as <-.
      destruct (Z_ge_lt_dec raw1 (max range)) as [Hh1 | Hh1].
      * rewrite updateAxis_high in H1 by lia. injection H1 as <-. lia.
      * destruct (Hint raw1 ltac:(lia)) as [E1 B1]. rewrite E1 in H1.
        injection H1 as <-. lia.
    + destruct (Hint raw1 ltac:(lia)) as [E1 _]. rewrite E1 in H1.
      destruct (Hint raw2 ltac:(lia)) as [E2 _]. rewrite E2 in H2.
      injection H1 as <-. injection H2 as <-.
      apply Z.div_le_mono; lia.
Qed.

Lemma updateAxis_monotone_witness :
  updateAxis 1000 (mkAxisRange 440 3790) = Some 16 /\
  updateAxis 2115 (mkAxisRange 440 3790) = Some 50 /\ 16 <= 50.
Proof.
  assert (H1 : updateAxis 1000 (mkAxisRange 440 3790) = Some 16) by reflexivity.
  assert (H2 : updateAxis 2115 (mkAxisRange 440 3790) = Some 50) by reflexivity.
  split; [exact H1 |]. split; [exact H2 |].
  apply (updateAxis_monotone 1000 2115 (mkAxisRange 440 3790) 16 50).
  - vm_compute; split; discriminate.
  - vm_compute; split; discriminate.
  - reflexivity.
  - vm_compute; discriminate.
  - vm_compute; discriminate.
  - exact H1.
  - exact H2.
Defined.

(** X2: on such a range the normaliser shows 100 exactly when the raw value
    has reached the max bound, and 0 exactly when the raw value is less than
    one hundredth of the span above the min bound. *)
Theorem updateAxis_extremes (raw : Z) (range : AxisRange) :
  in_LONG (min range) -> in_LONG (max range) ->
  min range < max range ->
  (max range - min range) * 100 <= LONG_MAX ->
  (updateAxis raw range = Some 100 <-> raw >= max range) /\
  (updateAxis raw range = Some 0 <-> (raw - min range) * 100 < max range - min range).
Proof.
  intros Hmin Hmax Hlt Hspan.
  destruct (Z_le_gt_dec raw (min range)) as [Hl | Hl].
  { rewrite updateAxis_low by exact Hl. split; split; intros H; try discriminate H; try lia.
    reflexivity. }
  destruct (Z_ge_lt_dec raw (max range)) as [Hh | Hh].
  { rewrite updateAxis_high by lia. split; split; intros H; try discriminate H; try lia.
    reflexivity. }
  rewrite updateAxis_interpolate by (auto; lia).
  assert (Hlt100 : (raw - min range) * 100 / (max range - min range) < 100).
  { apply Z.div_lt_upper_bound; lia. }
  split; split; intros H.
  - injection H as H. lia.
  - lia.
  - injection H as H. apply Z.div_small_iff in H; lia.
  - f_equal. apply Z.div_small. lia.
Qed.

Lemma updateAxis_extremes_witness :
  (updateAxis 4094 default_range = Some 100 <-> 4094 >= max default_range) /\
  (updateAxis 40 default_range = Some 0
   <-> (40 - min default_range) * 100 < max default_range - min default_range).
Proof.
  pose proof (updateAxis_extremes 4094 default_range) as H1.
  pose proof (updateAxis_extremes 40 default_range) as H2.
  split.
  - apply H1; vm_compute; try split; try discriminate; reflexivity.
  - apply H2; vm_compute; try split; try discriminate; reflexivity.
Defined.

(** X3: for a raw value of the raw domain 0..4095, the raw percentage of the
    Win32 window lies in [0,100] and is the calibrated percentage on the
    default range. *)
Theorem WindowProc_RawPercent_default (raw : Z) :
  0 <= raw <= 4095 ->
  exists p, WindowProc_RawPercent raw = Some p /\
            WindowProc_CalPercent raw default_range = Some p /\
            p = raw * 100 / 4095 /\ 0 <= p <= 100.
Proof.
  intros Hraw. exists (raw * 100 / 4095).
  assert (Hp : 0 <= raw * 100 / 4095 <= 100).
  { split; [apply Z.div_pos; lia | apply Z.div_le_upper_bound; lia]. }
  assert (Hraw_percent : WindowProc_RawPercent raw = Some (raw * 100 / 4095)).
  { unfold WindowProc_RawPercent, LONG_div. cbn [Z.eqb].
    rewrite (wrapLONG_id (raw * 100)) by (unfold in_LONG, LONG_MIN, LONG_MAX; lia).
    rewrite Z.quot_div_nonneg by lia.
    rewrite wrapLONG_id by (unfold in_LONG, LONG_MIN, LONG_MAX; lia). reflexivity. }
  split; [exact Hraw_percent |]. split; [| split; [reflexivity | exact Hp]].
  change (WindowProc_CalPercent raw default_range) with (updateAxis raw default_range).
  destruct (Z.eq_dec raw 0) as [-> | Hn0]; [reflexivity |].
  destruct (Z.eq_dec raw 4095) as [-> | Hn]; [reflexivity |].
  rewrite updateAxis_interpolate; cbn [min max default_range];
    try (vm_compute; try split; discriminate); [| lia].
  rewrite Z.sub_0_r. reflexivity.
Qed.

Lemma WindowProc_RawPercent_default_witness :
  0 <= 2048 <= 4095 /\
  exists p, WindowProc_RawPercent 2048 = Some p /\
            WindowProc_CalPercent 2048 default_range = Some p /\
            p = 2048 * 100 / 4095 /\ 0 <= p <= 100.
Proof.
  assert (H : 0 <= 2048 <= 4095) by (split; discriminate).
  split; [exact H |]. exact (WindowProc_RawPercent_default 2048 H).
Defined.

(** ** Further properties: the backup history of the window *)

Lemma history_after_length (op : Operation) (w : MainWindow) :
  (length (calibrationHistory w) <= 10)%nat ->
  (length (history_after op w) <= 10)%nat.
Proof.
  intros Hlen. destruct op; cbn [history_after]; try exact Hlen.
  - cbv zeta. destruct (Nat.ltb_spec 10 (length (calibrationHistory w ++ [snapshot w])))
      as [Hfull | Hroom]; [| exact Hroom].
    rewrite length_drop, length_app. cbn [length]. lia.
  - rewrite removelast_firstn_len, length_take. lia.
Qed.

(** X4: in every state the operations lead to from the initial window, the
    backup history holds at most 10 snapshots. *)
Theorem calibrationHistory_bounded (hkcu : Registry) (w : MainWindow) :
  reachable hkcu w -> (length (calibrationHistory w) <= 10)%nat.
Proof.
  induction 1 as [| op w w' Hr IH Hs Hstep]; [cbn; lia |].
  destruct (step_Done op w (reachable_LONG hkcu w Hr) Hs) as (w'' & Hstep' & _ & _ & Hh).
  rewrite Hstep in Hstep'. injection Hstep' as ->.
  rewrite Hh. apply history_after_length. exact IH.
Qed.

Lemma calibrationHistory_bounded_witness :
  reachable ∅ (MainWindow_init ∅) /\
  (length (calibrationHistory (MainWindow_init ∅)) <= 10)%nat.
Proof.
  assert (Hr : reachable ∅ (MainWindow_init ∅)) by constructor.
  split; [exact Hr |]. exact (calibrationHistory_bounded ∅ (MainWindow_init ∅) Hr).
Defined.

(** X5: restore-last right after restore-defaults is an undo of the ranges:
    the three ranges are what they were before restore-defaults, and so is
    the history when it held fewer than 10 snapshots (with 10, its oldest
    snapshot is lost); the calibrated flag is not restored, it stays off. *)
Theorem restoreLastCalibration_undoes_restoreDefaults (w : MainWindow) :
  LONG_window w ->
  exists w1 w2,
    restoreDefaults w = Done w1 /\ restoreLastCalibration w1 = Done w2 /\
    xRange w2 = xRange w /\ zRange w2 = zRange w /\ ryRange w2 = ryRange w /\
    calibrationHistory w2
    = (if (length (calibrationHistory w) <? 10)%nat then calibrationHistory w
       else drop 1 (calibrationHistory w)) /\
    m_calibrated w2 = false.
Proof.
  intros Hw.
  destruct (step_Done RestoreDefaults w Hw I) as (w1 & Hstep1 & Hw1 & Hc1 & Hh1).
  cbn [step calibrated_after history_after] in Hstep1, Hc1, Hh1. cbv zeta in Hh1.
  assert (Hsplit : exists kept, calibrationHistory w1 = kept ++ [snapshot w] /\
            kept = (if (length (calibrationHistory w) <? 10)%nat then calibrationHistory w
                    else drop 1 (calibrationHistory w))).
  { rewrite Hh1, length_app. cbn [length].
    destruct (Nat.ltb_spec 10 (length (calibrationHistory w) + 1)) as [Hfull | Hroom].
    - exists (drop 1 (calibrationHistory w)). split.
      + rewrite drop_app_le by lia. reflexivity.
      + destruct (Nat.ltb_spec (length (calibrationHistory w)) 10); [lia | reflexivity].
    - exists (calibrationHistory w). split; [reflexivity |].
      destruct (Nat.ltb_spec (length (calibrationHistory w)) 10); [reflexivity | lia]. }
  destruct Hsplit as (kept & Hh1' & Hkept).
  destruct (restoreLastCalibration_Done w1 Hw1) as [hkcu2 Hstep2].
  rewrite Hh1', last_snoc, removelast_last in Hstep2.
  exists w1. eexists. split; [exact Hstep1 |]. split; [exact Hstep2 |].
  split; [reflexivity |]. split; [reflexivity |]. split; [reflexivity |].
  split; [exact Hkept | exact Hc1].
Qed.

Lemma restoreLastCalibration_undoes_restoreDefaults_witness :
  exists w1 w2,
    restoreDefaults (MainWindow_init ∅) = Done w1 /\
    restoreLastCalibration w1 = Done w2 /\
    xRange w2 = xRange (MainWindow_init ∅) /\ zRange w2 = zRange (MainWindow_init ∅) /\
    ryRange w2 = ryRange (MainWindow_init ∅) /\
    calibrationHistory w2
    = (if (length (calibrationHistory (MainWindow_init ∅)) <? 10)%nat
       then calibrationHistory (MainWindow_init ∅)
       else drop 1 (calibrationHistory (MainWindow_init ∅))) /\
    m_calibrated w2 = false.
Proof.
  apply (restoreLastCalibration_undoes_restoreDefaults (MainWindow_init ∅)).
  apply LONG_MainWindow_init.
Defined.

(** X6: as long as restore-defaults has not been used, the history is empty
    and restore-last changes nothing, the registry included. *)
Theorem restoreLastCalibration_without_backup (ops : list Operation) (hkcu : Registry) :
  Forall sample_ok ops -> ~ In RestoreDefaults ops ->
  exists w, run ops (MainWindow_init hkcu) = Done w /\
            calibrationHistory w = [] /\
            restoreLastCalibration w = Done w.
Proof.
  intros Hops Hno.
  assert (Hgen : forall w0, LONG_window w0 -> calibrationHistory w0 = [] ->
            exists w, run ops w0 = Done w /\ calibrationHistory w = []).
  { induction Hops as [| op rest Hop _ IH]; intros w0 Hw0 Hh0; cbn [run].
    - exists w0. split; [reflexivity | exact Hh0].
    - destruct (step_Done op w0 Hw0 Hop) as (w1 & -> & Hw1 & _ & Hh1).
      cbn [mbind Outcome_bind]. apply IH.
      + intros Hin. apply Hno. right. exact Hin.
      + exact Hw1.
      + rewrite Hh1. destruct op; cbn [history_after]; try exact Hh0.
        * exfalso. apply Hno. left. reflexivity.
        * rewrite Hh0. reflexivity. }
  destruct (Hgen (MainWindow_init hkcu) (LONG_MainWindow_init hkcu) eq_refl)
    as (w & Hrun & Hh).
  exists w. split; [exact Hrun |]. split; [exact Hh |].
  unfold restoreLastCalibration. rewrite Hh. reflexivity.
Qed.

Lemma restoreLastCalibration_without_backup_witness :
  exists w, run [Tick (Some (440, 0, 0)); SetMin 0; Reset] (MainWindow_init ∅) = Done w /\
            calibrationHistory w = [] /\
            restoreLastCalibration w = Done w.
Proof.
  apply (restoreLastCalibration_without_backup
           [Tick (Some (440, 0, 0)); SetMin 0; Reset] ∅).
  - repeat constructor; vm_compute; discriminate.
  - intros [H | [H | [H | []]]]; discriminate H.
Defined.

(** ** Further properties: the registry *)

Lemma saveCalibrationToRegistry_write (calibrationData : string) (axisIndex : Z)
    (hkcu : Registry) (v : ParsedValues) :
  parse_calibrationData calibrationData axisIndex = Ok v ->
  saveCalibrationToRegistry calibrationData axisIndex hkcu
  = Ok (write_record axisIndex (axisData_of v) hkcu).
Proof.
  intros Hparse. unfold saveCalibrationToRegistry, write_record.
  rewrite Hparse. cbn [mbind Result_bind].
  destruct (hkcu !! saveCalibrationToRegistry_axisPath axisIndex); reflexivity.
Qed.

Lemma saveCalibrationToRegistry_inv (calibrationData : string) (axisIndex : Z)
    (hkcu hkcu' : Registry) :
  saveCalibrationToRegistry calibrationData axisIndex hkcu = Ok hkcu' ->
  exists v, parse_calibrationData calibrationData axisIndex = Ok v /\
            hkcu' = write_record axisIndex (axisData_of v) hkcu.
Proof.
  intros Hsave.
  destruct (parse_calibrationData calibrationData axisIndex) as [v | e] eqn:Hparse.
  - rewrite (saveCalibrationToRegistry_write _ _ _ _ Hparse) in Hsave.
    injection Hsave as <-. exists v. split; reflexivity.
  - unfold saveCalibrationToRegistry in Hsave. rewrite Hparse in Hsave.
    discriminate Hsave.
Qed.

Lemma lookup_write_record_ne (axisIndex : Z) (axisData : AxisCalibration)
    (hkcu : Registry) (path : string) :
  path <> saveCalibrationToRegistry_axisPath axisIndex ->
  write_record axisIndex axisData hkcu !! path = hkcu !! path.
Proof.
  intros Hne. unfold write_record.
  destruct (hkcu !! saveCalibrationToRegistry_axisPath axisIndex); [| reflexivity].
  apply lookup_insert_ne. congruence.
Qed.

Lemma stored_write_record (axisIndex : Z) (axisData : AxisCalibration)
    (hkcu : Registry) :
  is_Some (hkcu !! saveCalibrationToRegistry_axisPath axisIndex) ->
  stored_calibration (write_record axisIndex axisData hkcu)
    (saveCalibrationToRegistry_axisPath axisIndex)
  = Some (AxisCalibration_bytes axisData).
Proof.
  intros [hKey Hkey]. unfold write_record, stored_calibration. rewrite Hkey.
  rewrite lookup_insert_eq. cbn. apply lookup_insert_eq.
Qed.

Lemma stored_write_record_ne (axisIndex : Z) (axisData : AxisCalibration)
    (hkcu : Registry) (path : string) :
  path <> saveCalibrationToRegistry_axisPath axisIndex ->
  stored_calibration (write_record axisIndex axisData hkcu) path
  = stored_calibration hkcu path.
Proof.
  intros Hne. unfold stored_calibration.
  rewrite lookup_write_record_ne by exact Hne. reflexivity.
Qed.

Lemma is_Some_write_record (axisIndex : Z) (axisData : AxisCalibration)
    (hkcu : Registry) (path : string) :
  is_Some (write_record axisIndex axisData hkcu !! path) <-> is_Some (hkcu !! path).
Proof.
  unfold write_record.
  destruct (hkcu !! saveCalibrationToRegistry_axisPath axisIndex) as [hKey |] eqn:Hkey;
    [| reflexivity].
  destruct (decide (path = saveCalibrationToRegistry_axisPath axisIndex)) as [-> | Hne].
  - rewrite lookup_insert_eq, Hkey. split; intros _; eexists; reflexivity.
  - rewrite lookup_insert_ne by congruence. reflexivity.
Qed.

(** The keys of the three axes, and of the indices without a [case]. *)
Lemma axisPath_cases (axisIndex : Z) :
  (is_axis axisIndex = true \/
   saveCalibrationToRegistry_axisPath axisIndex = saveCalibrationToRegistry_axisPath 0) /\
  (saveCalibrationToRegistry_axisPath axisIndex = saveCalibrationToRegistry_axisPath 0
   \/ saveCalibrationToRegistry_axisPath axisIndex = saveCalibrationToRegistry_axisPath 1
   \/ saveCalibrationToRegistry_axisPath axisIndex = saveCalibrationToRegistry_axisPath 2).
Proof.
  destruct axisIndex as [| [[| |] | [| |] |] |]; split; auto.
Qed.

Lemma axisPath_distinct :
  saveCalibrationToRegistry_axisPath 0 <> saveCalibrationToRegistry_axisPath 1 /\
  saveCalibrationToRegistry_axisPath 0 <> saveCalibrationToRegistry_axisPath 2 /\
  saveCalibrationToRegistry_axisPath 1 <> saveCalibrationToRegistry_axisPath 2.
Proof.
  repeat split; apply String.eqb_neq; vm_compute; reflexivity.
Qed.

(** X7: a write never creates a key: the registry has the same keys after
    it, and when the key of the axis is missing the registry is left as it
    was. *)
Theorem saveCalibrationToRegistry_no_new_key (calibrationData : string) (axisIndex : Z)
    (hkcu hkcu' : Registry) :
  saveCalibrationToRegistry calibrationData axisIndex hkcu = Ok hkcu' ->
  dom hkcu' = dom hkcu /\
  (hkcu !! saveCalibrationToRegistry_axisPath axisIndex = None -> hkcu' = hkcu).
Proof.
  intros (v & _ & ->)%saveCalibrationToRegistry_inv. unfold write_record.
  destruct (hkcu !! saveCalibrationToRegistry_axisPath axisIndex) as [hKey |] eqn:Hkey.
  - split; [| discriminate].
    apply dom_insert_lookup_L. rewrite Hkey. eexists. reflexivity.
  - split; reflexivity.
Qed.

Lemma saveCalibrationToRegistry_no_new_key_witness :
  dom (∅ : Registry) = dom (∅ : Registry) /\
  ((∅ : Registry) !! saveCalibrationToRegistry_axisPath 0 = None ->
   (∅ : Registry) = ∅).
Proof.
  apply (saveCalibrationToRegistry_no_new_key "MinX=440;MaxX=3790;" 0 ∅ ∅).
  vm_compute. reflexivity.
Defined.

(** X8: a write changes nothing but the value "Calibration" of the key of
    its axis: every other key, and every other value of that key, is as
    before. *)
Theorem saveCalibrationToRegistry_frame (calibrationData : string) (axisIndex : Z)
    (hkcu hkcu' : Registry) :
  saveCalibrationToRegistry calibrationData axisIndex hkcu = Ok hkcu' ->
  (forall path, path <> saveCalibrationToRegistry_axisPath axisIndex ->
                hkcu' !! path = hkcu !! path) /\
  (forall name : string, name <> "Calibration"%string ->
     (hkcu' !! saveCalibrationToRegistry_axisPath axisIndex) ≫= (fun hKey => hKey !! name)
     = (hkcu !! saveCalibrationToRegistry_axisPath axisIndex) ≫= (fun hKey => hKey !! name)).
Proof.
  intros (v & _ & ->)%saveCalibrationToRegistry_inv. split.
  - intros path Hne. apply lookup_write_record_ne. exact Hne.
  - intros name Hne. unfold write_record.
    destruct (hkcu !! saveCalibrationToRegistry_axisPath axisIndex) as [hKey |] eqn:Hkey.
    + rewrite lookup_insert_eq. cbn. apply lookup_insert_ne. congruence.
    + rewrite Hkey. reflexivity.
Qed.

Lemma saveCalibrationToRegistry_frame_witness :
  write_record 0 (axisData_of (mkParsedValues 440 3790 0 0))
    {[ saveCalibrationToRegistry_axisPath 0 := ∅ ]}
    !! saveCalibrationToRegistry_axisPath 1
  = ({[ saveCalibrationToRegistry_axisPath 0 := ∅ ]} : Registry)
    !! saveCalibrationToRegistry_axisPath 1.
Proof.
  apply (saveCalibrationToRegistry_frame "MinX=440;MaxX=3790;" 0
           {[ saveCalibrationToRegistry_axisPath 0 := ∅ ]}).
  - apply saveCalibrationToRegistry_write. vm_compute. reflexivity.
  - apply String.eqb_neq. vm_compute. reflexivity.
Defined.




(** X10: [readCalibrationData] does not see a write for the RY axis: it
    returns the same three outcomes before and after. *)
Theorem readCalibrationData_misses_RY (calibrationData : string)
    (hkcu hkcu' : Registry) :
  saveCalibrationToRegistry calibrationData 2 hkcu = Ok hkcu' ->
  readCalibrationData hkcu' = readCalibrationData hkcu.
Proof.
  intros (v & _ & ->)%saveCalibrationToRegistry_inv.
  assert (Hne : forall i, In i [0; 1; 2] ->
            readCalibrationData_axisPath i <> saveCalibrationToRegistry_axisPath 2).
  { intros i [<- | [<- | [<- | []]]]; apply String.eqb_neq; vm_compute; reflexivity. }
  unfold readCalibrationData, readCalibrationData_axis. cbn [map].
  rewrite !lookup_write_record_ne by (apply Hne; cbn; auto). reflexivity.
Qed.

Lemma readCalibrationData_misses_RY_witness :
  stored_calibration
    (write_record 2 (axisData_of (mkParsedValues 100 4000 0 0))
       {[ saveCalibrationToRegistry_axisPath 2 := ∅ ]})
    (saveCalibrationToRegistry_axisPath 2)
  = Some (AxisCalibration_bytes (axisData_of (mkParsedValues 100 4000 0 0))) /\
  readCalibrationData
    (write_record 2 (axisData_of (mkParsedValues 100 4000 0 0))
       {[ saveCalibrationToRegistry_axisPath 2 := ∅ ]})
  = readCalibrationData {[ saveCalibrationToRegistry_axisPath 2 := ∅ ]}.
Proof.
  split.
  - apply stored_write_record. exists ∅. apply lookup_singleton_eq.
  - apply (readCalibrationData_misses_RY "MinRY=100;MaxRY=4000;"
             {[ saveCalibrationToRegistry_axisPath 2 := ∅ ]}).
    apply saveCalibrationToRegistry_write. vm_compute. reflexivity.
Defined.

Lemma parse_tokens_no_case (axisIndex : Z) (ts : list string) (v : ParsedValues) :
  is_axis axisIndex = false -> parse_tokens axisIndex ts v = Ok v.
Proof.
  intros Hax. induction ts as [| token rest IH]; [reflexivity |].
  cbn [parse_tokens].
  replace (parse_token axisIndex token v) with (Ok v);
    [exact IH |].
  destruct axisIndex as [| [[| |] | [| |] |] |]; try discriminate Hax; reflexivity.
Qed.

(** X11: for an axis index other than 0, 1, 2 the string is not looked at:
    the write goes to the key of the X axis, with the default record
    {0, 2047, 4095, 0, 0}. *)
Theorem saveCalibrationToRegistry_other_index (calibrationData : string)
    (axisIndex : Z) (hkcu : Registry) :
  is_axis axisIndex = false ->
  saveCalibrationToRegistry calibrationData axisIndex hkcu
  = Ok (write_record 0 (mkAxisCalibration 0 2047 4095 0 0) hkcu).
Proof.
  intros Hax.
  rewrite (saveCalibrationToRegistry_write _ _ _ initial_values)
    by (apply parse_tokens_no_case; exact Hax).
  unfold write_record.
  replace (saveCalibrationToRegistry_axisPath axisIndex)
    with (saveCalibrationToRegistry_axisPath 0); [reflexivity |].
  destruct (axisPath_cases axisIndex) as [[Hax' | Hpath] _]; congruence.
Qed.

Lemma saveCalibrationToRegistry_other_index_witness :
  is_axis 3 = false /\
  saveCalibrationToRegistry "MinX=440;MaxX=3790;" 3 ∅
  = Ok (write_record 0 (mkAxisCalibration 0 2047 4095 0 0) ∅).
Proof.
  assert (H : is_axis 3 = false) by reflexivity.
  split; [exact H |].
  exact (saveCalibrationToRegistry_other_index "MinX=440;MaxX=3790;" 3 ∅ H).
Defined.

Lemma write_record_idempotent (axisIndex : Z) (axisData : AxisCalibration)
    (hkcu : Registry) :
  write_record axisIndex axisData (write_record axisIndex axisData hkcu)
  = write_record axisIndex axisData hkcu.
Proof.
  unfold write_record at 2.
  destruct (hkcu !! saveCalibrationToRegistry_axisPath axisIndex) as [hKey |] eqn:Hkey.
  - unfold write_record. rewrite lookup_insert_eq, !insert_insert_eq.
    rewrite Hkey. reflexivity.
  - unfold write_record. rewrite Hkey. reflexivity.
Qed.

Lemma write_record_commute (a1 a2 : Z) (d1 d2 : AxisCalibration) (hkcu : Registry) :
  saveCalibrationToRegistry_axisPath a1 <> saveCalibrationToRegistry_axisPath a2 ->
  write_record a2 d2 (write_record a1 d1 hkcu)
  = write_record a1 d1 (write_record a2 d2 hkcu).
Proof.
  intros Hne. unfold write_record at 1 3.
  rewrite !lookup_write_record_ne by congruence.
  unfold write_record.
  destruct (hkcu !! saveCalibrationToRegistry_axisPath a1) as [k1 |];
    destruct (hkcu !! saveCalibrationToRegistry_axisPath a2) as [k2 |];
    try reflexivity.
  apply insert_insert_ne. congruence.
Qed.

Lemma registryIndex_axisPath (a1 a2 : Z) :
  registryIndex a1 <> registryIndex a2 ->
  saveCalibrationToRegistry_axisPath a1 <> saveCalibrationToRegistry_axisPath a2.
Proof.
  intros Hne. unfold saveCalibrationToRegistry_axisPath.
  assert (Hcases : forall a, registryIndex a = 0 \/ registryIndex a = 2 \/ registryIndex a = 4).
  { intros a. destruct a as [| [[| |] | [| |] |] |]; cbn; auto. }
  destruct (Hcases a1) as [E1 | [E1 | E1]], (Hcases a2) as [E2 | [E2 | E2]];
    rewrite E1, E2 in *; try congruence;
    apply String.eqb_neq; vm_compute; reflexivity.
Qed.

(** X12: writing the same string for the same axis a second time changes
    nothing, and two writes for axes with different registry slots give the
    same registry in either order. *)
Theorem saveCalibrationToRegistry_compose (d1 d2 : string) (a1 a2 : Z)
    (hkcu : Registry) (v1 v2 : ParsedValues) :
  parse_calibrationData d1 a1 = Ok v1 ->
  parse_calibrationData d2 a2 = Ok v2 ->
  (saveCalibrationToRegistry d1 a1 hkcu ≫= saveCalibrationToRegistry d1 a1)
  = saveCalibrationToRegistry d1 a1 hkcu /\
  (registryIndex a1 <> registryIndex a2 ->
   (saveCalibrationToRegistry d1 a1 hkcu ≫= saveCalibrationToRegistry d2 a2)
   = (saveCalibrationToRegistry d2 a2 hkcu ≫= saveCalibrationToRegistry d1 a1)).
Proof.
  intros H1 H2. split.
  - rewrite (saveCalibrationToRegistry_write _ _ hkcu _ H1). cbn [mbind Result_bind].
    rewrite (saveCalibrationToRegistry_write _ _ _ _ H1), write_record_idempotent.
    reflexivity.
  - intros Hne%registryIndex_axisPath.
    rewrite (saveCalibrationToRegistry_write _ _ hkcu _ H1),
            (saveCalibrationToRegistry_write _ _ hkcu _ H2).
    cbn [mbind Result_bind].
    rewrite (saveCalibrationToRegistry_write _ _ _ _ H1),
            (saveCalibrationToRegistry_write _ _ _ _ H2).
    f_equal. apply write_record_commute. exact Hne.
Qed.

Lemma saveCalibrationToRegistry_compose_witness :
  (saveCalibrationToRegistry "MinX=440;MaxX=3790;" 0 ∅
   ≫= saveCalibrationToRegistry "MinX=440;MaxX=3790;" 0)
  = saveCalibrationToRegistry "MinX=440;MaxX=3790;" 0 ∅ /\
  (registryIndex 0 <> registryIndex 1 ->
   (saveCalibrationToRegistry "MinX=440;MaxX=3790;" 0 ∅
    ≫= saveCalibrationToRegistry "MinZ=100;MaxZ=4000;" 1)
   = (saveCalibrationToRegistry "MinZ=100;MaxZ=4000;" 1 ∅
      ≫= saveCalibrationToRegistry "MinX=440;MaxX=3790;" 0)).
Proof.
  apply (saveCalibrationToRegistry_compose "MinX=440;MaxX=3790;" "MinZ=100;MaxZ=4000;"
           0 1 ∅ (mkParsedValues 440 3790 0 0) (mkParsedValues 100 4000 0 0)).
  - vm_compute. reflexivity.
  - vm_compute. reflexivity.
Defined.

Lemma parse_tokens_throws (axisIndex : Z) (ts : list string) (token : string)
    (v : ParsedValues) :
  In token ts ->
  supplies axisIndex FMinDeadzone token = true
  \/ supplies axisIndex FMaxDeadzone token = true ->
  exists e, parse_tokens axisIndex ts v = Throw e.
Proof.
  intros Hin Hdz. revert v.
  induction ts as [| t rest IH]; intros v; [destruct Hin |].
  cbn [parse_tokens]. destruct Hin as [-> | Hin].
  - rewrite (deadzone_token_throws _ _ _ Hdz). exists invalid_argument. reflexivity.
  - destruct (parse_token axisIndex t v) as [v' | e]; cbn.
    + apply IH. exact Hin.
    + exists e. reflexivity.
Qed.

(** X13: a string with a token that starts with a deadzone prefix of the
    axis is never written: the call ends with an exception, whatever the
    registry. *)
Theorem saveCalibrationToRegistry_deadzone_throws (calibrationData : string)
    (axisIndex : Z) (token : string) (hkcu : Registry) :
  In token (tokens calibrationData) ->
  supplies axisIndex FMinDeadzone token = true
  \/ supplies axisIndex FMaxDeadzone token = true ->
  exists e, saveCalibrationToRegistry calibrationData axisIndex hkcu = Throw e.
Proof.
  intros Hin Hdz.
  destruct (parse_tokens_throws axisIndex _ token initial_values Hin Hdz) as [e He].
  exists e. unfold saveCalibrationToRegistry, parse_calibrationData.
  rewrite He. reflexivity.
Qed.

Lemma saveCalibrationToRegistry_deadzone_throws_witness :
  exists e,
    saveCalibrationToRegistry "MinX=440;MaxDeadzoneX=10;MaxX=3790;" 0
      {[ saveCalibrationToRegistry_axisPath 0 := ∅ ]} = Throw e.
Proof.
  apply (saveCalibrationToRegistry_deadzone_throws
           "MinX=440;MaxDeadzoneX=10;MaxX=3790;" 0 "MaxDeadzoneX=10").
  - vm_compute. right. left. reflexivity.
  - right. vm_compute. reflexivity.
Defined.

(** ** Further properties: the parsing loop *)

Lemma tokens_terminated_nonempty (s : string) :
  exists t ts, tokens (s +:+ String ";" "") = t :: ts.
Proof.
  induction s as [| c r (t & ts & IH)].
  - rewrite append_empty. eexists _, _. reflexivity.
  - rewrite append_String. cbn [tokens]. rewrite IH.
    destruct (Ascii.eqb c ";"); eexists _, _; reflexivity.
Qed.

Lemma tokens_semicolon_app (s t : string) :
  tokens (s +:+ String ";" t) = tokens (s +:+ String ";" "") ++ tokens t.
Proof.
  induction s as [| c r IH].
  - rewrite !append_empty. reflexivity.
  - rewrite !append_String. cbn [tokens]. rewrite IH.
    destruct (tokens_terminated_nonempty r) as (t0 & ts & ->).
    destruct (Ascii.eqb c ";"); reflexivity.
Qed.

Lemma tokens_no_semicolon (t : string) : no_semicolon t = true -> tokens t = [].
Proof.
  induction t as [| c r IH]; cbn [no_semicolon tokens]; [reflexivity |].
  destruct (Ascii.eqb c ";"); [discriminate |].
  intros Hr. rewrite (IH Hr). reflexivity.
Qed.

Lemma parse_tokens_app (axisIndex : Z) (l1 l2 : list string) (v : ParsedValues) :
  parse_tokens axisIndex (l1 ++ l2) v
  = parse_tokens axisIndex l1 v ≫= parse_tokens axisIndex l2.
Proof.
  revert v. induction l1 as [| token rest IH]; intros v; [reflexivity |].
  cbn [app parse_tokens].
  destruct (parse_token axisIndex token v) as [v' | e]; cbn; [apply IH | reflexivity].
Qed.

(** X14: the text after the last [";"] of a calibration string is not
    parsed: it can be dropped without changing the result, and a string
    without any [";"] gives the initial values (min 0, max 4095, deadzones
    0), whatever it says. *)
Theorem unterminated_token_dropped (s t : string) (axisIndex : Z) :
  no_semicolon t = true ->
  parse_calibrationData (s +:+ String ";" t) axisIndex
  = parse_calibrationData (s +:+ String ";" "") axisIndex /\
  parse_calibrationData t axisIndex = Ok initial_values.
Proof.
  intros Ht. unfold parse_calibrationData.
  rewrite tokens_semicolon_app, (tokens_no_semicolon t Ht), app_nil_r.
  split; reflexivity.
Qed.

Lemma unterminated_token_dropped_witness :
  parse_calibrationData ("MinX=440" +:+ String ";" "MaxX=3790") 0
  = parse_calibrationData ("MinX=440" +:+ String ";" "") 0 /\
  parse_calibrationData "MaxX=3790" 0 = Ok initial_values.
Proof.
  apply (unterminated_token_dropped "MinX=440" "MaxX=3790" 0). reflexivity.
Defined.

(** The two tokens of the string of a range, from any values. *)
Lemma parse_tokens_calibration_string (axis : Z) (name : string) (range : AxisRange)
    (v : ParsedValues) :
  (axis = 0 /\ name = "X"%string) \/ (axis = 1 /\ name = "Z"%string)
  \/ (axis = 2 /\ name = "RY"%string) ->
  in_LONG (min range) -> in_LONG (max range) ->
  parse_tokens axis (tokens (calibration_string name range)) v
  = Ok {| p_min := wrapDWORD (min range); p_max := wrapDWORD (max range);
          p_minDeadzone := p_minDeadzone v; p_maxDeadzone := p_maxDeadzone v |}.
Proof.
  intros Haxis Hmin%in_LONG_ULONG Hmax%in_LONG_ULONG.
  pose proof (to_wstring_no_semicolon (min range)) as Hs1.
  pose proof (to_wstring_no_semicolon (max range)) as Hs2.
  pose proof (stoul_to_wstring _ Hmin) as Hr1.
  pose proof (stoul_to_wstring _ Hmax) as Hr2.
  destruct Haxis as [[-> ->] | [[-> ->] | [-> ->]]].
  - change (calibration_string "X" range)
      with (("MinX=" +:+ to_wstring (min range))
            +:+ String ";" (("MaxX=" +:+ to_wstring (max range)) +:+ String ";" ""))%string.
    rewrite !tokens_app by (rewrite no_semicolon_app; assumption).
    cbn [tokens parse_tokens parse_token]. unfold parse_case. eval_find_at_0.
    change (substr ("MinX=" +:+ to_wstring (min range)) 5) with (Ok (to_wstring (min range))).
    change (substr ("MaxX=" +:+ to_wstring (max range)) 5) with (Ok (to_wstring (max range))).
    cbn [mbind Result_bind]. rewrite Hr1. cbn [mbind Result_bind mret Result_ret].
    eval_find_at_0. rewrite Hr2. reflexivity.
  - change (calibration_string "Z" range)
      with (("MinZ=" +:+ to_wstring (min range))
            +:+ String ";" (("MaxZ=" +:+ to_wstring (max range)) +:+ String ";" ""))%string.
    rewrite !tokens_app by (rewrite no_semicolon_app; assumption).
    cbn [tokens parse_tokens parse_token]. unfold parse_case. eval_find_at_0.
    change (substr ("MinZ=" +:+ to_wstring (min range)) 5) with (Ok (to_wstring (min range))).
    change (substr ("MaxZ=" +:+ to_wstring (max range)) 5) with (Ok (to_wstring (max range))).
    cbn [mbind Result_bind]. rewrite Hr1. cbn [mbind Result_bind mret Result_ret].
    eval_find_at_0. rewrite Hr2. reflexivity.
  - change (calibration_string "RY" range)
      with (("MinRY=" +:+ to_wstring (min range))
            +:+ String ";" (("MaxRY=" +:+ to_wstring (max range)) +:+ String ";" ""))%string.
    rewrite !tokens_app by (rewrite no_semicolon_app; assumption).
    cbn [tokens parse_tokens parse_token]. unfold parse_case. eval_find_at_0.
    change (substr ("MinRY=" +:+ to_wstring (min range)) 6) with (Ok (to_wstring (min range))).
    change (substr ("MaxRY=" +:+ to_wstring (max range)) 6) with (Ok (to_wstring (max range))).
    cbn [mbind Result_bind]. rewrite Hr1. cbn [mbind Result_bind mret Result_ret].
    eval_find_at_0. rewrite Hr2. reflexivity.
Qed.

(** X15: the last token of a field wins: when the string of a range
    ("Min<name>=<min>;Max<name>=<max>;") follows a text that ends with
    [";"] and is parsed without an exception, the min and max of the result
    are those of the range, whatever the text set before. *)
Theorem later_tokens_override (s : string) (axis : Z) (name : string)
    (range : AxisRange) (v : ParsedValues) :
  (axis = 0 /\ name = "X"%string) \/ (axis = 1 /\ name = "Z"%string)
  \/ (axis = 2 /\ name = "RY"%string) ->
  in_LONG (min range) -> in_LONG (max range) ->
  parse_calibrationData (s +:+ String ";" "") axis = Ok v ->
  parse_calibrationData (s +:+ String ";" (calibration_string name range)) axis
  = Ok {| p_min := wrapDWORD (min range); p_max := wrapDWORD (max range);
          p_minDeadzone := 0; p_maxDeadzone := 0 |}.
Proof.
  intros Haxis Hmin Hmax Hparse.
  destruct (parse_tokens_deadzones _ _ _ _ Hparse) as [Hdz1 Hdz2].
  cbn [initial_values p_minDeadzone p_maxDeadzone] in Hdz1, Hdz2.
  unfold parse_calibrationData in *.
  rewrite tokens_semicolon_app, parse_tokens_app, Hparse. cbn [mbind Result_bind].
  rewrite (parse_tokens_calibration_string axis name range v Haxis Hmin Hmax).
  rewrite Hdz1, Hdz2. reflexivity.
Qed.

Lemma later_tokens_override_witness :
  parse_calibrationData
    ("MinX=1;MaxX=2" +:+ String ";" (calibration_string "X" (mkAxisRange 440 3790))) 0
  = Ok {| p_min := wrapDWORD (min (mkAxisRange 440 3790));
          p_max := wrapDWORD (max (mkAxisRange 440 3790));
          p_minDeadzone := 0; p_maxDeadzone := 0 |}.
Proof.
  apply (later_tokens_override "MinX=1;MaxX=2" 0 "X" (mkAxisRange 440 3790)
           (mkParsedValues 1 2 0 0)).
  - left. split; reflexivity.
  - vm_compute; split; discriminate.
  - vm_compute; split; discriminate.
  - vm_compute. reflexivity.
Defined.

(** X16: [stoul] reads back what [to_wstring] printed of a [LONG]: the value
    itself when it is not negative, the value plus 2^32 when it is (a
    negative bound is stored as a large unsigned one). *)
Theorem stoul_to_wstring_LONG (v : Z) :
  in_LONG v ->
  stoul (to_wstring v) = Ok (if v <? 0 then v + 4294967296 else v).
Proof.
  intros Hv. rewrite (stoul_to_wstring v (in_LONG_ULONG v Hv)). f_equal.
  unfold in_LONG, LONG_MIN, LONG_MAX in Hv. unfold wrapDWORD.
  destruct (Z.ltb_spec v 0) as [Hneg | Hpos].
  - symmetry. apply (Z.mod_unique v 4294967296 (-1)); lia.
  - apply Z.mod_small. lia.
Qed.

Lemma stoul_to_wstring_LONG_witness :
  in_LONG (-5) /\ stoul (to_wstring (-5)) = Ok (if -5 <? 0 then -5 + 4294967296 else -5).
Proof.
  assert (H : in_LONG (-5)) by (vm_compute; split; discriminate).
  split; [exact H |]. exact (stoul_to_wstring_LONG (-5) H).
Defined.

(** ** Further properties: what the window persists *)

Lemma save_calibration_string_eq (axis : Z) (name : string) (range : AxisRange)
    (w : MainWindow) :
  (axis = 0 /\ name = "X"%string) \/ (axis = 1 /\ name = "Z"%string)
  \/ (axis = 2 /\ name = "RY"%string) ->
  LONG_range range ->
  save (calibration_string name range) axis w
  = Done (set_HKEY_CURRENT_USER
            (write_record axis (range_record range) (HKEY_CURRENT_USER w)) w).
Proof.
  intros Haxis [Hmin Hmax]. unfold save.
  rewrite (saveCalibrationToRegistry_write _ _ _ _
             (parse_calibration_string axis name range Haxis Hmin Hmax)).
  reflexivity.
Qed.

Lemma save_three_eq (rx rz rry : AxisRange) (w : MainWindow) :
  LONG_range rx -> LONG_range rz -> LONG_range rry ->
  (w1 ← save (calibration_string "X" rx) 0 w;
   w2 ← save (calibration_string "Z" rz) 1 w1;
   save (calibration_string "RY" rry) 2 w2)
  = Done (set_HKEY_CURRENT_USER (three_writes rx rz rry (HKEY_CURRENT_USER w)) w).
Proof.
  intros Hx Hz Hry.
  rewrite (save_calibration_string_eq 0 "X" rx w) by auto. cbn [mbind Outcome_bind].
  rewrite (save_calibration_string_eq 1 "Z" rz) by auto. cbn [mbind Outcome_bind].
  rewrite (save_calibration_string_eq 2 "RY" rry) by auto. reflexivity.
Qed.

Lemma stored_three_writes (rx rz rry : AxisRange) (hkcu : Registry) (axis : Z) :
  is_axis axis = true ->
  is_Some (hkcu !! saveCalibrationToRegistry_axisPath axis) ->
  stored_calibration (three_writes rx rz rry hkcu) (saveCalibrationToRegistry_axisPath axis)
  = Some (AxisCalibration_bytes
            (range_record match axis with 0 => rx | 1 => rz | _ => rry end)).
Proof.
  intros Hax Hkey. destruct axisPath_distinct as (H01 & H02 & H12).
  unfold three_writes.
  destruct axis as [| [[| |] | [| |] |] |]; try discriminate Hax.
  - rewrite stored_write_record_ne by exact H02.
    rewrite stored_write_record_ne by exact H01.
    apply stored_write_record. exact Hkey.
  - rewrite stored_write_record; [reflexivity |].
    apply is_Some_write_record, is_Some_write_record. exact Hkey.
  - rewrite stored_write_record_ne by exact H12.
    rewrite stored_write_record; [reflexivity |].
    apply is_Some_write_record. exact Hkey.
Qed.

Lemma resetCalibration_eq (w : MainWindow) :
  resetCalibration w
  = Done (mkMainWindow false (currentXRaw w) (currentZRaw w) (currentRYRaw w)
            default_range default_range default_range (calibrationHistory w)
            (xCalBar w) (zCalBar w) (ryCalBar w)
            (three_writes default_range default_range default_range
               (HKEY_CURRENT_USER w))).
Proof.
  unfold resetCalibration. cbv zeta.
  change "MinX=0;MaxX=4095;"%string with (calibration_string "X" default_range).
  change "MinZ=0;MaxZ=4095;"%string with (calibration_string "Z" default_range).
  change "MinRY=0;MaxRY=4095;"%string with (calibration_string "RY" default_range).
  match goal with
  | |- context [save _ 0 ?w0] =>
      rewrite (save_three_eq default_range default_range default_range w0
                 LONG_default_range LONG_default_range LONG_default_range)
  end.
  reflexivity.
Qed.

Lemma restoreLastCalibration_eq (w : MainWindow) (backup : CalibrationBackup) :
  LONG_window w -> last (calibrationHistory w) = Some backup ->
  restoreLastCalibration w
  = Done (set_HKEY_CURRENT_USER
            (three_writes (x backup) (z backup) (ry backup) (HKEY_CURRENT_USER w))
            (set_calibrationHistory (removelast (calibrationHistory w))
               (with_ranges backup w))).
Proof.
  intros (_ & _ & _ & _ & _ & _ & Hh) Hlast.
  assert (Hb : LONG_backup backup).
  { rewrite Forall_forall in Hh. apply Hh.
    apply last_Some_elem_of in Hlast. exact Hlast. }
  destruct Hb as (Hbx & Hbz & Hbry).
  unfold restoreLastCalibration. rewrite Hlast. cbv zeta.
  match goal with
  | |- context [save _ 0 ?w0] =>
      pose proof (save_three_eq (x backup) (z backup) (ry backup) w0 Hbx Hbz Hbry)
        as Hsave
  end.
  exact Hsave.
Qed.

Lemma setAxisMin_eq (axis : Z) (w : MainWindow) :
  LONG_window w -> is_axis axis = true ->
  setAxisMin axis w
  = match axis with
    | 0 => let r := {| min := currentXRaw w; max := max (xRange w) |} in
           Done (set_HKEY_CURRENT_USER
                   (write_record 0 (range_record r) (HKEY_CURRENT_USER w))
                   (set_xRange r w))
    | 1 => let r := {| min := currentZRaw w; max := max (zRange w) |} in
           Done (set_HKEY_CURRENT_USER
                   (write_record 1 (range_record r) (HKEY_CURRENT_USER w))
                   (set_zRange r w))
    | _ => let r := {| min := currentRYRaw w; max := max (ryRange w) |} in
           Done (set_HKEY_CURRENT_USER
                   (write_record 2 (range_record r) (HKEY_CURRENT_USER w))
                   (set_ryRange r w))
    end.
Proof.
  intros (Hx & Hz & Hry & [_ Hxr] & [_ Hzr] & [_ Hryr] & _) Hax.
  unfold setAxisMin.
  destruct axis as [| [[| |] | [| |] |] |]; try discriminate Hax; cbv zeta;
    match goal with
    | |- context [save (calibration_string ?n ?r) ?a ?w0] =>
        rewrite (save_calibration_string_eq a n r w0 ltac:(auto) ltac:(split; assumption))
    end; reflexivity.
Qed.

Lemma setAxisMax_eq (axis : Z) (w : MainWindow) :
  LONG_window w -> is_axis axis = true ->
  setAxisMax axis w
  = match axis with
    | 0 => let r := {| min := min (xRange w); max := currentXRaw w |} in
           Done (set_m_calibrated true
                   (set_HKEY_CURRENT_USER
                      (write_record 0 (range_record r) (HKEY_CURRENT_USER w))
                      (set_xRange r w)))
    | 1 => let r := {| min := min (zRange w); max := currentZRaw w |} in
           Done (set_m_calibrated true
                   (set_HKEY_CURRENT_USER
                      (write_record 1 (range_record r) (HKEY_CURRENT_USER w))
                      (set_zRange r w)))
    | _ => let r := {| min := min (ryRange w); max := currentRYRaw w |} in
           Done (set_m_calibrated true
                   (set_HKEY_CURRENT_USER
                      (write_record 2 (range_record r) (HKEY_CURRENT_USER w))
                      (set_ryRange r w)))
    end.
Proof.
  intros (Hx & Hz & Hry & [Hxr _] & [Hzr _] & [Hryr _] & _) Hax.
  unfold setAxisMax.
  destruct axis as [| [[| |] | [| |] |] |]; try discriminate Hax; cbv zeta;
    match goal with
    | |- context [save (calibration_string ?n ?r) ?a ?w0] =>
        rewrite (save_calibration_string_eq a n r w0 ltac:(auto) ltac:(split; assumption))
    end; reflexivity.
Qed.

Lemma range_record_nonneg (range : AxisRange) :
  LONG_range range -> 0 <= min range -> 0 <= max range ->
  range_record range
  = mkAxisCalibration (min range) ((min range + max range) / 2) (max range) 0 0.
Proof.
  unfold LONG_range, in_LONG, LONG_MIN, LONG_MAX. intros [Hmin Hmax] H0 H1.
  unfold range_record, axisData_of. cbn [p_min p_max p_minDeadzone p_maxDeadzone].
  rewrite (wrapDWORD_id (min range)) by (unfold in_DWORD, ULONG_MAX; lia).
  rewrite (wrapDWORD_id (max range)) by (unfold in_DWORD, ULONG_MAX; lia).
  rewrite wrapDWORD_id by (unfold in_DWORD, ULONG_MAX; lia). reflexivity.
Qed.

(** X17: an operation that writes an axis leaves, under the key of that axis
    when the key exists, the record of the range the window then holds for
    it: for bounds that are not negative, min, the half sum rounded down,
    max, and two zero deadzones.  Memory and registry agree after every
    reset, restore, set-min and set-max. *)
Theorem operation_persists_range (op : Operation) (w : MainWindow) (axis : Z) :
  LONG_window w -> sample_ok op -> writes op w axis = true ->
  is_Some (HKEY_CURRENT_USER w !! saveCalibrationToRegistry_axisPath axis) ->
  exists w',
    step op w = Done w' /\
    stored_calibration (HKEY_CURRENT_USER w') (saveCalibrationToRegistry_axisPath axis)
    = Some (AxisCalibration_bytes (range_record (range_of axis w'))) /\
    (0 <= min (range_of axis w') -> 0 <= max (range_of axis w') ->
     range_record (range_of axis w')
     = mkAxisCalibration (min (range_of axis w'))
         ((min (range_of axis w') + max (range_of axis w')) / 2)
         (max (range_of axis w')) 0 0).
Proof.
  intros Hw Hs Hwrites Hkey.
  assert (Hmain : exists w',
    step op w = Done w' /\
    stored_calibration (HKEY_CURRENT_USER w') (saveCalibrationToRegistry_axisPath axis)
    = Some (AxisCalibration_bytes (range_record (range_of axis w')))).
  { destruct op as [a | a | | | | sample]; cbn [step writes] in *.
    - apply andb_prop in Hwrites as [Hax ->%Z.eqb_eq].
      rewrite (setAxisMin_eq axis w Hw Hax).
      destruct axis as [| [[| |] | [| |] |] |]; try discriminate Hax; cbv zeta;
        eexists; (split; [reflexivity |]); apply stored_write_record; exact Hkey.
    - apply andb_prop in Hwrites as [Hax ->%Z.eqb_eq].
      rewrite (setAxisMax_eq axis w Hw Hax).
      destruct axis as [| [[| |] | [| |] |] |]; try discriminate Hax; cbv zeta;
        eexists; (split; [reflexivity |]); apply stored_write_record; exact Hkey.
    - rewrite resetCalibration_eq. eexists. split; [reflexivity |].
      cbn [HKEY_CURRENT_USER]. rewrite (stored_three_writes _ _ _ _ _ Hwrites Hkey).
      destruct axis as [| [[| |] | [| |] |] |]; try discriminate Hwrites; reflexivity.
    - change (restoreDefaults w) with (resetCalibration (backupCurrentCalibration w)).
      rewrite resetCalibration_eq. eexists. split; [reflexivity |].
      cbn [HKEY_CURRENT_USER]. rewrite (stored_three_writes _ _ _ _ _ Hwrites Hkey).
      destruct axis as [| [[| |] | [| |] |] |]; try discriminate Hwrites; reflexivity.
    - destruct (last (calibrationHistory w)) as [backup |] eqn:Hlast;
        [| discriminate Hwrites].
      rewrite (restoreLastCalibration_eq w backup Hw Hlast).
      eexists. split; [reflexivity |].
      cbn [HKEY_CURRENT_USER set_HKEY_CURRENT_USER].
      rewrite (stored_three_writes _ _ _ _ _ Hwrites Hkey).
      destruct axis as [| [[| |] | [| |] |] |]; try discriminate Hwrites; reflexivity.
    - discriminate Hwrites. }
  destruct Hmain as (w' & Hstep & Hstored).
  exists w'. split; [exact Hstep |]. split; [exact Hstored |].
  destruct (step_Done op w Hw Hs) as (w'' & Hstep' & Hw' & _).
  rewrite Hstep in Hstep'. injection Hstep' as <-.
  apply range_record_nonneg.
  destruct Hw' as (_ & _ & _ & Hxr & Hzr & Hryr & _).
  unfold range_of. destruct axis as [| [[| |] | [| |] |] |]; assumption.
Qed.

Lemma operation_persists_range_witness :
  exists w',
    step (SetMax 0)
      (mkMainWindow false 3790 0 0 (mkAxisRange 440 4095) default_range default_range
         [] 0 0 0 {[ saveCalibrationToRegistry_axisPath 0 := ∅ ]}) = Done w' /\
    stored_calibration (HKEY_CURRENT_USER w') (saveCalibrationToRegistry_axisPath 0)
    = Some (AxisCalibration_bytes (range_record (range_of 0 w'))) /\
    (0 <= min (range_of 0 w') -> 0 <= max (range_of 0 w') ->
     range_record (range_of 0 w')
     = mkAxisCalibration (min (range_of 0 w'))
         ((min (range_of 0 w') + max (range_of 0 w')) / 2)
         (max (range_of 0 w')) 0 0).
Proof.
  apply (operation_persists_range (SetMax 0)
           (mkMainWindow false 3790 0 0 (mkAxisRange 440 4095) default_range default_range
              [] 0 0 0 {[ saveCalibrationToRegistry_axisPath 0 := ∅ ]}) 0).
  - pose proof LONG_default_range as Hd.
    assert (H0 : in_LONG 0) by (vm_compute; split; discriminate).
    assert (H1 : in_LONG 3790) by (vm_compute; split; discriminate).
    assert (H2 : LONG_range (mkAxisRange 440 4095))
      by (split; vm_compute; split; discriminate).
    pose proof (Forall_nil_2 LONG_backup).
    unfold LONG_window.
    cbn [currentXRaw currentZRaw currentRYRaw xRange zRange ryRange calibrationHistory].
    tauto.
  - exact I.
  - reflexivity.
  - exists ∅. apply lookup_singleton_eq.
Defined.

(** ** Further properties: the two front-ends *)

Lemma SaveAxisCalibration_eq (axisIndex : Z) (g : Globals) :
  is_axis axisIndex = true ->
  LONG_range (g_xRange g) -> LONG_range (g_zRange g) -> LONG_range (g_ryRange g) ->
  SaveAxisCalibration axisIndex g
  = Done (mkGlobals (g_currentXRaw g) (g_currentZRaw g) (g_currentRYRaw g)
            (g_xRange g) (g_zRange g) (g_ryRange g)
            (write_record axisIndex
               (range_record match axisIndex with
                             | 0 => g_xRange g
                             | 1 => g_zRange g
                             | _ => g_ryRange g
                             end)
               (g_HKEY_CURRENT_USER g))).
Proof.
  intros Hax [Hx1 Hx2] [Hz1 Hz2] [Hry1 Hry2]. unfold SaveAxisCalibration.
  destruct axisIndex as [| [[| |] | [| |] |] |]; try discriminate Hax; cbv zeta.
  - change ("MinX=" +:+ to_wstring (min (g_xRange g))
            +:+ ";MaxX=" +:+ to_wstring (max (g_xRange g)) +:+ ";")%string
      with (calibration_string "X" (g_xRange g)).
    rewrite (saveCalibrationToRegistry_write _ _ _ _
               (parse_calibration_string 0 "X" (g_xRange g) ltac:(auto) Hx1 Hx2)).
    reflexivity.
  - change ("MinRY=" +:+ to_wstring (min (g_ryRange g))
            +:+ ";MaxRY=" +:+ to_wstring (max (g_ryRange g)) +:+ ";")%string
      with (calibration_string "RY" (g_ryRange g)).
    rewrite (saveCalibrationToRegistry_write _ _ _ _
               (parse_calibration_string 2 "RY" (g_ryRange g) ltac:(auto) Hry1 Hry2)).
    reflexivity.
  - change ("MinZ=" +:+ to_wstring (min (g_zRange g))
            +:+ ";MaxZ=" +:+ to_wstring (max (g_zRange g)) +:+ ";")%string
      with (calibration_string "Z" (g_zRange g)).
    rewrite (saveCalibrationToRegistry_write _ _ _ _
               (parse_calibration_string 1 "Z" (g_zRange g) ltac:(auto) Hz1 Hz2)).
    reflexivity.
Qed.

Lemma WindowProc_RawPercent_defined (raw : Z) :
  exists p, WindowProc_RawPercent raw = Some p.
Proof. eexists. reflexivity. Qed.

(** Closes the side conditions on the ranges of the globals. *)
Ltac LONG_range_solve :=
  cbn [g_xRange g_zRange g_ryRange]; unfold LONG_range in *; cbn [min max]; tauto.

(** X18: the Win32 window and the Qt window do the same to the calibration:
    from states with the same raw values, ranges and registry, a reset, a
    set-min or set-max on one of the three axes, or a tick with the same
    sample, handled by [WindowProc] on one side and by the slot on the
    other, both end, again with the same raw values, ranges and registry. *)
Theorem front_ends_agree (op : Operation) (m : Message) (g : Globals) (w : MainWindow) :
  message_of op = Some m -> same_calibration g w ->
  LONG_window w -> sample_ok op ->
  exists g' w',
    WindowProc m g = Done g' /\ step op w = Done w' /\ same_calibration g' w'.
Proof.
  intros Hmsg Hsame Hw Hs.
  destruct g as [gx gz gry grx grz grry gh].
  destruct Hsame as (E1 & E2 & E3 & E4 & E5 & E6 & E7).
  cbn [g_currentXRaw g_currentZRaw g_currentRYRaw g_xRange g_zRange g_ryRange
       g_HKEY_CURRENT_USER] in *.
  subst gx gz gry grx grz grry gh.
  pose proof Hw as (Hx & Hz & Hry & Hxr & Hzr & Hryr & _).
  pose proof LONG_default_range as Hd.
  destruct op as [a | a | | | | sample].
  - assert (Hax : is_axis a = true).
    { destruct a as [| [[| |] | [| |] |] |]; try discriminate Hmsg; reflexivity. }
    cbn [step]. rewrite (setAxisMin_eq a w Hw Hax).
    destruct a as [| [[| |] | [| |] |] |]; try discriminate Hax;
      injection Hmsg as <-; unfold WindowProc;
      match goal with
      | |- context [LOWORD ?n] => change (LOWORD n) with n; cbv iota
      end;
      rewrite SaveAxisCalibration_eq by (first [reflexivity | LONG_range_solve]);
      eexists _, _; (split; [reflexivity |]); (split; [reflexivity |]);
      repeat split; reflexivity.
  - assert (Hax : is_axis a = true).
    { destruct a as [| [[| |] | [| |] |] |]; try discriminate Hmsg; reflexivity. }
    cbn [step]. rewrite (setAxisMax_eq a w Hw Hax).
    destruct a as [| [[| |] | [| |] |] |]; try discriminate Hax;
      injection Hmsg as <-; unfold WindowProc;
      match goal with
      | |- context [LOWORD ?n] => change (LOWORD n) with n; cbv iota
      end;
      rewrite SaveAxisCalibration_eq by (first [reflexivity | LONG_range_solve]);
      eexists _, _; (split; [reflexivity |]); (split; [reflexivity |]);
      repeat split; reflexivity.
  - injection Hmsg as <-. cbn [step]. rewrite resetCalibration_eq.
    unfold WindowProc. change (LOWORD 101) with 101. cbv iota zeta.
    unfold ResetCalibration.
    cbn [g_currentXRaw g_currentZRaw g_currentRYRaw g_HKEY_CURRENT_USER].
    rewrite SaveAxisCalibration_eq by (first [reflexivity | exact Hd]).
    cbn [mbind Outcome_bind].
    rewrite SaveAxisCalibration_eq by (first [reflexivity | exact Hd]).
    cbn [mbind Outcome_bind].
    rewrite SaveAxisCalibration_eq by (first [reflexivity | exact Hd]).
    eexists _, _. split; [reflexivity |]. split; [reflexivity |].
    repeat split; reflexivity.
  - discriminate Hmsg.
  - discriminate Hmsg.
  - injection Hmsg as <-. cbn [step].
    destruct sample as [[[rx rz] rry] |].
    + unfold WindowProc, updateValues.
      cbn [g_currentXRaw g_currentZRaw g_currentRYRaw g_xRange g_zRange g_ryRange
           set_raw currentXRaw currentZRaw currentRYRaw xRange zRange ryRange].
      change (WindowProc_CalPercent rx (xRange w)) with (updateAxis rx (xRange w)).
      change (WindowProc_CalPercent rz (zRange w)) with (updateAxis rz (zRange w)).
      change (WindowProc_CalPercent rry (ryRange w)) with (updateAxis rry (ryRange w)).
      destruct (WindowProc_RawPercent_defined rx) as [px ->].
      destruct (WindowProc_RawPercent_defined rz) as [pz ->].
      destruct (WindowProc_RawPercent_defined rry) as [pry ->].
      destruct (updateAxis_defined rx (xRange w) Hxr) as [bx ->].
      destruct (updateAxis_defined rz (zRange w) Hzr) as [bz ->].
      destruct (updateAxis_defined rry (ryRange w) Hryr) as [bry ->].
      eexists _, _. split; [reflexivity |]. split; [reflexivity |].
      repeat split; reflexivity.
    + exists (mkGlobals (currentXRaw w) (currentZRaw w) (currentRYRaw w)
                (xRange w) (zRange w) (ryRange w) (HKEY_CURRENT_USER w)), w.
      split; [reflexivity |]. split; [reflexivity |]. repeat split; reflexivity.
Qed.

Lemma front_ends_agree_witness :
  exists g' w',
    WindowProc (WM_COMMAND 101) (Globals_init ∅) = Done g' /\
    step Reset (MainWindow_init ∅) = Done w' /\ same_calibration g' w'.
Proof.
  apply (front_ends_agree Reset (WM_COMMAND 101) (Globals_init ∅) (MainWindow_init ∅)).
  - reflexivity.
  - repeat split; reflexivity.
  - apply LONG_MainWindow_init.
  - exact I.
Defined.

(** ** Further properties: the device enumeration *)

Lemma target_test (Data1 : Z) :
  in_DWORD Data1 ->
  negb (LOWORD Data1 =? 7634) || negb (HIWORD Data1 =? 10037)
  = negb (Data1 =? 657792466).
Proof.
  unfold in_DWORD, ULONG_MAX. intros Hd. unfold LOWORD, HIWORD.
  change 65535 with (Z.ones 16).
  rewrite !Z.land_ones by lia. rewrite Z.shiftr_div_pow2 by lia.
  change (2 ^ 16) with 65536.
  assert (Hhi : (Data1 / 65536) mod 65536 = Data1 / 65536).
  { apply Z.mod_small. split; [apply Z.div_pos; lia |].
    apply Z.div_lt_upper_bound; lia. }
  rewrite Hhi.
  pose proof (Z.div_mod Data1 65536 ltac:(lia)) as Hdm.
  pose proof (Z.mod_pos_bound Data1 65536 ltac:(lia)) as Hm.
  destruct (Z.eqb_spec (Data1 mod 65536) 7634) as [Hlo | Hlo];
    destruct (Z.eqb_spec (Data1 / 65536) 10037) as [Hh | Hh];
    destruct (Z.eqb_spec Data1 657792466) as [He | He];
    cbn; try reflexivity; exfalso; lia.
Qed.

(** X19: the enumeration ends with the first attached device that is the
    target product (the first field of its product GUID is 0x27351DD2: low
    word 0x1DD2, high word 0x2735) and on which [CreateDevice] and
    [SetDataFormat] succeed; with no such device, no device is held. *)
Theorem EnumDevices_first_usable_target (devices : list DeviceInstance) :
  Forall (fun d => in_DWORD (guidProduct_Data1 d)) devices ->
  EnumDevices devices = List.find usable_target devices.
Proof.
  induction 1 as [| d rest Hd _ IH]; [reflexivity |].
  cbn [EnumDevices List.find]. unfold EnumDevicesCallback, usable_target. cbv zeta.
  rewrite (target_test _ Hd).
  destruct (guidProduct_Data1 d =? 657792466); cbn [negb andb]; [| exact IH].
  destruct (CreateDevice_ok d); cbn [negb andb]; [| exact IH].
  destruct (SetDataFormat_ok d); cbn [negb]; [reflexivity | exact IH].
Qed.

Lemma EnumDevices_first_usable_target_witness :
  EnumDevices [mkDeviceInstance 73271148 true true;
               mkDeviceInstance 657792466 true false;
               mkDeviceInstance 657792466 true true]
  = List.find usable_target
      [mkDeviceInstance 73271148 true true;
       mkDeviceInstance 657792466 true false;
       mkDeviceInstance 657792466 true true].
Proof.
  apply EnumDevices_first_usable_target.
  repeat constructor; vm_compute; discriminate.
Defined.

(** ** Further properties: the chart histories *)

Lemma history_push_drop {A : Type} (all : list A) (v : A) :
  history_push v (drop (length all - GRAPH_HISTORY) all)
  = drop (length (all ++ [v]) - GRAPH_HISTORY) (all ++ [v]).
Proof.
  unfold history_push, GRAPH_HISTORY. cbv zeta.
  rewrite !length_app, length_drop. cbn [length].
  destruct (Nat.ltb_spec 100 (length all - (length all - 100) + 1)) as [Hfull | Hroom].
  - rewrite <- drop_app_le by lia. rewrite drop_drop. f_equal. lia.
  - replace (length all - 100)%nat with 0%nat by lia.
    replace (length all + 1 - 100)%nat with 0%nat by lia. reflexivity.
Qed.

Lemma history_pushes_drop {A : Type} (vs all : list A) (h : list A) :
  h = drop (length all - GRAPH_HISTORY) all ->
  history_pushes vs h = drop (length (all ++ vs) - GRAPH_HISTORY) (all ++ vs).
Proof.
  revert all h. induction vs as [| v rest IH]; intros all h Hh.
  - rewrite app_nil_r. exact Hh.
  - cbn [history_pushes fold_left]. fold (history_pushes rest (history_push v h)).
    rewrite (IH (all ++ [v])).
    + rewrite <- app_assoc. reflexivity.
    + rewrite Hh. apply history_push_drop.
Qed.

(** X20: a chart history that holds at most 100 values holds, after any
    number of ticks, the last 100 of its values followed by the pushed
    ones, in order, and never more than 100 values. *)
Theorem history_pushes_keeps_last (double : Type) (vs xHistory : list double) :
  (length xHistory <= GRAPH_HISTORY)%nat ->
  history_pushes vs xHistory
  = drop (length (xHistory ++ vs) - GRAPH_HISTORY) (xHistory ++ vs) /\
  (length (history_pushes vs xHistory) <= GRAPH_HISTORY)%nat.
Proof.
  intros Hlen.
  assert (Heq : history_pushes vs xHistory
                = drop (length (xHistory ++ vs) - GRAPH_HISTORY) (xHistory ++ vs)).
  { apply history_pushes_drop.
    replace (length xHistory - GRAPH_HISTORY)%nat with 0%nat by lia. reflexivity. }
  split; [exact Heq |].
  rewrite Heq, length_drop. lia.
Qed.

Lemma history_pushes_keeps_last_witness :
  history_pushes (seq 0 102) []
  = drop (length ([] ++ seq 0 102) - GRAPH_HISTORY) ([] ++ seq 0 102) /\
  (length (history_pushes (seq 0 102) []) <= GRAPH_HISTORY)%nat.
Proof.
  apply (history_pushes_keeps_last nat (seq 0 102) []).
  vm_compute. repeat constructor.
Defined.

(** ** Further properties: the axis names *)

(** X21: the names written by [saveAxisNames] are the names [loadAxisNames]
    reads back, and no other key of the settings is changed. *)
Theorem loadAxisNames_saveAxisNames (names : AxisNames) (settings : Settings) :
  loadAxisNames (saveAxisNames names settings) = names /\
  (forall key : string,
     key <> "AxisNames/X"%string -> key <> "AxisNames/Z"%string ->
     key <> "AxisNames/RY"%string ->
     saveAxisNames names settings !! key = settings !! key).
Proof.
  split.
  - destruct names as [nx nz nry].
    unfold loadAxisNames, saveAxisNames, settings_value.
    cbn [xAxisName zAxisName ryAxisName].
    rewrite lookup_insert_eq.
    rewrite (lookup_insert_ne _ "AxisNames/RY"%string "AxisNames/Z"%string) by discriminate.
    rewrite lookup_insert_eq.
    rewrite (lookup_insert_ne _ "AxisNames/RY"%string "AxisNames/X"%string) by discriminate.
    rewrite (lookup_insert_ne _ "AxisNames/Z"%string "AxisNames/X"%string) by discriminate.
    rewrite lookup_insert_eq. reflexivity.
  - intros key Hx Hz Hry. unfold saveAxisNames.
    rewrite !lookup_insert_ne by congruence. reflexivity.
Qed.

(** X22: a rename keeps the names of the window and the settings in step:
    when the names are those the settings give, they still are after the
    rename button of an axis, whatever the dialog returns; a cancelled
    dialog or an empty name changes neither. *)
Theorem renameAxis_in_step (axisIndex : Z) (ok : bool) (newName : string)
    (names : AxisNames) (settings : Settings) :
  is_axis axisIndex = true ->
  names = loadAxisNames settings ->
  fst (renameAxis axisIndex ok newName names settings)
  = loadAxisNames (snd (renameAxis axisIndex ok newName names settings)) /\
  (ok = false \/ newName = EmptyString ->
   renameAxis axisIndex ok newName names settings = (names, settings)).
Proof.
  intros Hax ->. split.
  - unfold renameAxis.
    destruct (ok && negb (String.eqb newName "")); [| reflexivity].
    destruct axisIndex as [| [[| |] | [| |] |] |]; try discriminate Hax;
      cbn [fst snd]; unfold loadAxisNames, settings_value;
      cbn [xAxisName zAxisName ryAxisName];
      repeat first [rewrite lookup_insert_eq | rewrite lookup_insert_ne by discriminate];
      reflexivity.
  - intros [-> | ->]; unfold renameAxis; [reflexivity |].
    rewrite andb_false_r. reflexivity.
Qed.

Lemma renameAxis_in_step_witness :
  fst (renameAxis 1 true "Brake" (loadAxisNames ∅) ∅)
  = loadAxisNames (snd (renameAxis 1 true "Brake" (loadAxisNames ∅) ∅)).
Proof.
  apply (renameAxis_in_step 1 true "Brake" (loadAxisNames ∅) ∅); reflexivity.
Defined.

Lemma loadAxisNames_saveAxisNames_witness :
  loadAxisNames (saveAxisNames (mkAxisNames "Throttle" "Brake" "Clutch") ∅)
  = mkAxisNames "Throttle" "Brake" "Clutch" /\
  saveAxisNames (mkAxisNames "Throttle" "Brake" "Clutch") ∅ !! "Other"%string
  = (∅ : Settings) !! "Other"%string.
Proof.
  pose proof (loadAxisNames_saveAxisNames (mkAxisNames "Throttle" "Brake" "Clutch") ∅)
    as [Hload Hother].
  split; [exact Hload |].
  apply Hother; discriminate.
Defined.

(** ** Further properties: validation and resolution *)

(** X23: on a range that [validateAxisRange] accepts, the integer
    normaliser still has its full resolution: each percentage from 0 to 100
    is the one shown for some raw value between the two bounds. *)
Theorem accepted_range_shows_every_percentage (range : AxisRange) (p : Z) :
  in_LONG (min range) -> in_LONG (max range) ->
  (max range - min range) * 100 <= LONG_MAX ->
  fst (validateAxisRange range) = true ->
  0 <= p <= 100 ->
  exists raw, min range <= raw <= max range /\ updateAxis raw range = Some p.
Proof.
  intros Hmin Hmax Hspan Hvalid Hp.
  assert (Hwide : 409 <= max range - min range).
  { unfold validateAxisRange in Hvalid.
    destruct (Z.geb_spec (min range) (max range)) as [Hge | Hlt]; [discriminate Hvalid |].
    rewrite wrapLONG_id in Hvalid
      by (unfold in_LONG, LONG_MIN, LONG_MAX in *; lia).
    destruct (Z.ltb_spec (max range - min range) 409) as [Hn | Hw];
      [discriminate Hvalid | exact Hw]. }
  set (span := max range - min range) in *.
  set (k := (p * span + 99) / 100).
  pose proof (Z.div_mod (p * span + 99) 100 ltac:(lia)) as Hdm.
  pose proof (Z.mod_pos_bound (p * span + 99) 100 ltac:(lia)) as Hm.
  fold k in Hdm.
  assert (Hk : p * span <= 100 * k <= p * span + 99) by lia.
  assert (Hk0 : 0 <= k <= span) by nia.
  exists (min range + k). split; [unfold span in *; lia |].
  destruct (Z.eq_dec k 0) as [Hz | Hnz].
  - rewrite updateAxis_low by lia. f_equal. nia.
  - destruct (Z.eq_dec k span) as [Hfull | Hpart].
    + rewrite updateAxis_high by (unfold span in *; lia). f_equal. nia.
    + rewrite updateAxis_interpolate by (auto; unfold span in *; lia).
      f_equal. fold span. replace (min range + k - min range) with k by lia.
      symmetry. apply (Z.div_unique_pos (k * 100) span p (k * 100 - span * p)); lia.
Qed.

Lemma accepted_range_shows_every_percentage_witness :
  exists raw,
    min (mkAxisRange 440 3790) <= raw <= max (mkAxisRange 440 3790) /\
    updateAxis raw (mkAxisRange 440 3790) = Some 37.
Proof.
  apply (accepted_range_shows_every_percentage (mkAxisRange 440 3790) 37).
  - vm_compute; split; discriminate.
  - vm_compute; split; discriminate.
  - vm_compute; discriminate.
  - reflexivity.
  - split; discriminate.
Defined.
